(** * Streamlit dashboard scripts: attendance tracker and data showcase

    A shallow embedding of the two scripts of the repository,
    [3_EmployeeAttendence.py] and [5_Display_And_Style_Data.py], and the
    properties of their only stateful behaviour: the session-scoped
    attendance log with its spreadsheet export, and the editable grid whose
    edits are joined back onto the product table.

    A Streamlit script is re-executed from top to bottom on every user
    interaction.  One execution is modelled as a function from the widget
    values of that interaction, the session state and the state of the
    outside world to the new session state, the elements written to the page
    and the exception, if any, that ended the execution. *)

From Stdlib Require Import ZArith String List Lia Strings.Byte.
From Stdlib Require Import Floats Uint63.
From stdpp Require Import base option list strings gmap pretty.

Set Warnings "-inexact-float".

Local Open Scope string_scope.
Local Open Scope list_scope.
Local Open Scope stdpp_scope.
Local Open Scope Z_scope.

(** ** Calendar dates and instants *)

Module Calendar.

(** A [datetime.date], by its proleptic Gregorian ordinal
    ([date.toordinal()]): day 1 is 0001-01-01. *)
Definition date : Type := Z.

Definition is_leap (y : Z) : bool :=
  (y mod 4 =? 0) && (negb (y mod 100 =? 0) || (y mod 400 =? 0)).

Definition days_before_year (y : Z) : Z :=
  let y1 := y - 1 in y1 * 365 + y1 / 4 - y1 / 100 + y1 / 400.

Definition days_in_month (y m : Z) : Z :=
  if m =? 2 then (if is_leap y then 29 else 28)
  else if (m =? 4) || (m =? 6) || (m =? 9) || (m =? 11) then 30
  else 31.

Fixpoint days_before_month_upto (y : Z) (n : nat) : Z :=
  match n with
  | O => 0
  | S k => days_before_month_upto y k + days_in_month y (Z.of_nat n)
  end.

(** [date(y, m, d)]. *)
Definition ymd (y m d : Z) : date :=
  days_before_year y + days_before_month_upto y (Z.to_nat (m - 1)) + d.

(** [d + timedelta(days=n)]. *)
Definition add_days (d : date) (n : Z) : date := d + n.

(** A naive [pd.Timestamp]: the calendar day and the nanoseconds elapsed
    since its midnight. *)
Record Timestamp : Type := mkTimestamp { ts_day : date; ts_nanos : Z }.

(** [Timestamp.date()]. *)
Definition date_of (t : Timestamp) : date := ts_day t.

End Calendar.

Export Calendar.

(** ** The attendance tracker, [3_EmployeeAttendence.py] *)

Module Attendance.

(** *** Values, dictionaries and data frames *)

(** The Python values the script stores in a record and pandas writes to a
    cell. *)
Inductive value : Type :=
| VDate (d : date)
| VStr (s : string)
| VTimestamp (t : Timestamp)
| VInt (n : Z)
| VNaN.

(** A [dict] with string keys, in insertion order. *)
Definition dict : Type := list (string * value).

Definition keys (d : dict) : list string := d.*1.

Fixpoint dict_get (k : string) (d : dict) : option value :=
  match d with
  | [] => None
  | (k', v) :: d' => if bool_decide (k' = k) then Some v else dict_get k d'
  end.

(** A [pd.DataFrame] with the default [RangeIndex]: its column labels and
    its rows, one cell per column. *)
Record DataFrame : Type := mkDataFrame {
  columns : list string;
  data : list (list value)
}.

(** The labels of [d] that [cols] does not have yet, in [d]'s order. *)
Definition new_keys (cols : list string) (d : dict) : list string :=
  filter (λ k, k ∉ cols) (keys d).

(** [pd.DataFrame(records)] for a list of dicts: the columns are the keys
    in order of first appearance, and a key a record lacks gives NaN. *)
Definition frame_columns (records : list dict) : list string :=
  fold_left (λ cols d, cols ++ new_keys cols d) records [].

Definition frame_row (cols : list string) (d : dict) : list value :=
  (λ c, default VNaN (dict_get c d)) <$> cols.

Definition DataFrame_of_records (records : list dict) : DataFrame :=
  let cols := frame_columns records in
  {| columns := cols; data := frame_row cols <$> records |}.

(** *** Workbooks *)

Record Sheet : Type := mkSheet {
  sheet_name : string;
  sheet_rows : list (list value)
}.

Definition Workbook : Type := list Sheet.

(** The index cells pandas writes in front of row [i] when [index=True]. *)
Definition index_cell (index : bool) (i : nat) : list value :=
  if index then [VInt (Z.of_nat i)] else [].

Definition header_row (index : bool) (df : DataFrame) : list value :=
  (if index then [VStr ""] else []) ++ (VStr <$> columns df).

(** [df.to_excel(writer, index=index, sheet_name=name)] with the default
    [header=True]: a header row with the column labels, then one row per
    row of the frame. *)
Definition DataFrame_to_excel (df : DataFrame) (index : bool) (name : string)
  : Sheet :=
  {| sheet_name := name;
     sheet_rows := header_row index df
                   :: imap (λ i row, index_cell index i ++ row) (data df) |}.

(** *** The attendance record *)

Record AttendanceRecord : Type := mkRecord {
  Date : date;
  Employee_ID : string;
  Employee_Name : string;
  Status : string;
  Timestamp_ : Timestamp
}.

(** The dict literal of lines 20-26. *)
Definition to_dict (r : AttendanceRecord) : dict :=
  [ ("Date", VDate (Date r));
    ("Employee ID", VStr (Employee_ID r));
    ("Employee Name", VStr (Employee_Name r));
    ("Status", VStr (Status r));
    ("Timestamp", VTimestamp (Timestamp_ r)) ].

Definition field_names : list string :=
  ["Date"; "Employee ID"; "Employee Name"; "Status"; "Timestamp"].

Definition cells (r : AttendanceRecord) : list value :=
  [ VDate (Date r); VStr (Employee_ID r); VStr (Employee_Name r);
    VStr (Status r); VTimestamp (Timestamp_ r) ].

(** *** Widgets *)

(** What the user did with the form in one interaction.  [None] is a
    widget the user left alone, which then returns its default. *)
Record FormInput : Type := mkFormInput {
  typed_emp_id : option string;
  typed_emp_name : option string;
  picked_status : option nat;
  picked_date : option date
}.

(** One execution of the script: the form's widgets, whether the submit
    button was pressed, and the two readings of the clock, at line 16 and
    at line 25. *)
Record Run : Type := mkRun {
  widgets : FormInput;
  submitted : bool;
  now_form : Timestamp;
  now_submit : Timestamp
}.

Definition text_input (typed : option string) : string := default "" typed.

(** [st.selectbox(label, options)]: the picked option, the first one by
    default. *)
Definition selectbox (options : list string) (picked : option nat) : string :=
  default "" (options !! default 0%nat picked).

(** [st.date_input(label, value)]. *)
Definition date_input (value : date) (picked : option date) : date :=
  default value picked.

Definition status_options : list string :=
  ["Present"; "Absent"; "Remote"; "On Leave"].

(** *** Session state and page elements *)

(** [st.session_state], a dict from keys to the lists stored under them. *)
Abbreviation session_state := (gmap string (list dict)).

Definition attendance_data (ss : session_state) : list dict :=
  default [] (ss !! "attendance_data").

Inductive element : Type :=
| title (body : string)
| success (body : string)
| info (body : string)
| subheader (body : string)
| dataframe (df : DataFrame)
| download_button (label : string) (data : list byte)
                  (file_name mime : string).

Definition is_download_button (e : element) : bool :=
  match e with download_button _ _ _ _ => true | _ => false end.

(** A Python exception, by its message. *)
Definition exn : Type := string.

Inductive result (A : Type) : Type :=
| Ok (a : A)
| Raise (e : exn).
Arguments Ok {A} a.
Arguments Raise {A} e.

(** Lines 6-7. *)
Definition init_session (ss : session_state) : session_state :=
  match ss !! "attendance_data" with
  | None => <["attendance_data" := []]> ss
  | Some _ => ss
  end.

(** The record line 20 builds from the widgets' values. *)
Definition entry (r : Run) : AttendanceRecord :=
  {| Date := date_input (date_of (now_form r)) (picked_date (widgets r));
     Employee_ID := text_input (typed_emp_id (widgets r));
     Employee_Name := text_input (typed_emp_name (widgets r));
     Status := selectbox status_options (picked_status (widgets r));
     Timestamp_ := now_submit r |}.

(** Lines 12-27: the form. *)
Definition attendance_form (r : Run) (ss : session_state)
  : session_state * list element :=
  if submitted r
  then (<["attendance_data" := attendance_data ss ++ [to_dict (entry r)]]> ss,
        [success "Attendance recorded!"])
  else (ss, []).

Definition file_name_xlsx : string := "employee_attendance.xlsx".
Definition mime_xlsx : string :=
  "application/vnd.openxmlformats-officedocument.spreadsheetml.sheet".

(** What one execution leaves behind. *)
Record Outcome (W : Type) : Type := mkOutcome {
  r_state : session_state;
  r_world : W;
  r_elements : list element;
  r_exception : option exn
}.
Arguments mkOutcome {W} _ _ _ _.
Arguments r_state {W} _.
Arguments r_world {W} _.
Arguments r_elements {W} _.
Arguments r_exception {W} _.

(** *** Records as pandas and the engine see them *)

(** The frame pandas builds from the dicts of [rs]. *)
Definition frame (rs : list AttendanceRecord) : DataFrame :=
  {| columns := field_names; data := cells <$> rs |}.

(** The sheet [to_excel] hands to the engine for that frame. *)
Definition export_sheet (rs : list AttendanceRecord) : Sheet :=
  {| sheet_name := "Attendance";
     sheet_rows := (VStr <$> field_names) :: (cells <$> rs) |}.

(** *** The sheet at cell level *)

(** What xlsxwriter leaves in a worksheet cell for the values pandas hands
    it, after the documentation of [Worksheet.write]. *)
Inductive xlsx_cell : Type :=
| XString (s : string)
| XDate (serial : Z)
| XDateTime (t : Timestamp)
| XNumber (n : Z)
| XFormula (formula : string)
| XRewritten (s : string)
| XEmpty.

(** How [write] treats a string: an empty one is a blank, one that starts
    with [=] a formula, one that looks like a link a hyperlink, and the rest
    goes to [write_string], which drops a string of more than 32767
    characters and escapes control characters. *)
Inductive text_kind : Type :=
| Blank
| Formula
| Link
| TooLong
| Control
| Plain.

Definition link_prefixes : list string :=
  ["http://"; "https://"; "ftp://"; "ftps://"; "mailto:"; "internal:";
   "external:"].

Definition ends_with_brace (s : string) : bool :=
  match String.get (String.length s - 1) s with
  | Some c => Ascii.eqb c (Ascii.ascii_of_nat 125)
  | None => false
  end.

(** The characters of a string of UTF-8 bytes: the bytes that do not
    continue a character. *)
Definition code_points (s : string) : nat :=
  length (filter (λ c, ¬ (128 ≤ Z.of_nat (Ascii.nat_of_ascii c) < 192))
                 (list_ascii_of_string s)).

Definition has_control (s : string) : bool :=
  existsb (λ c, let n := Ascii.nat_of_ascii c in
                (n <? 32)%nat || (n =? 127)%nat)
          (list_ascii_of_string s).

Definition kind_of_text (s : string) : text_kind :=
  if bool_decide (s = "") then Blank
  else if String.prefix "=" s then Formula
  else if String.prefix "{=" s && ends_with_brace s then Formula
  else if existsb (λ p, String.prefix p s) link_prefixes then Link
  else if 32767 <? Z.of_nat (code_points s) then TooLong
  else if has_control s then Control
  else Plain.

(** The serial number of a date: the days since 1899-12-31, one more after
    the 29 February 1900 that Excel counts. *)
Definition serial_of_date (d : date) : Z :=
  let days := d - 693595 in
  if 59 <? days then days + 1 else days.


(** [worksheet.write(row, col, val)] for the values of a frame. *)
Definition write_cell (v : value) : xlsx_cell :=
  match v with
  | VDate d => XDate (serial_of_date d)
  | VTimestamp t => XDateTime t
  | VInt n => XNumber n
  | VNaN => XEmpty
  | VStr s =>
      match kind_of_text s with
      | Blank | TooLong => XEmpty
      | Formula => XFormula s
      | Link | Control => XRewritten s
      | Plain => XString s
      end
  end.


Section Reader.

(** The serial number of an instant is a float, and so is what the reader
    makes of it: [read_instant] is the instant read back from the cell of an
    instant.  [read_rewritten] is what is read back for a text the engine
    rewrote, a hyperlink or escaped control characters. *)
Variable read_instant : Timestamp → Timestamp.
Variable read_rewritten : string → value.




End Reader.



(** *** Two engines and a first submission, for the examples *)

(** An engine that cannot be loaded: every save raises. *)
Definition missing_engine (wb : Workbook) (w : unit) : result (list byte) * unit :=
  (Raise "ModuleNotFoundError: No module named xlsxwriter", w).

(** An engine that fails on its first call only; its world counts the calls. *)
Definition flaky_engine (wb : Workbook) (calls : nat) : result (list byte) * nat :=
  (if (calls =? 0)%nat then Raise "OSError: write failed" else Ok [], S calls).

Definition first_submission : Run :=
  {| widgets := {| typed_emp_id := Some "E1"; typed_emp_name := Some "Alice";
                   picked_status := None; picked_date := None |};
     submitted := true;
     now_form := mkTimestamp (ymd 2024 1 10) 32400000000000;
     now_submit := mkTimestamp (ymd 2024 1 10) 32400000001000 |}.

(** A later submission for the same employee, the third option picked. *)
Definition remote_submission : Run :=
  {| widgets := {| typed_emp_id := Some "E1"; typed_emp_name := Some "Alice";
                   picked_status := Some 2%nat;
                   picked_date := Some (ymd 2024 1 11) |};
     submitted := true;
     now_form := mkTimestamp (ymd 2024 1 11) 32400000000000;
     now_submit := mkTimestamp (ymd 2024 1 11) 32400000002000 |}.

(** An engine with a counter beside its world: every save adds one. *)
Definition counted {W : Type} (save : Workbook → W → result (list byte) * W)
    (wb : Workbook) (wn : W * nat) : result (list byte) * (W * nat) :=
  let '(res, w') := save wb wn.1 in (res, (w', S wn.2)).

(** Whether a run picked its status among the options the select box shows. *)
Definition picks_an_option (r : Run) : Prop :=
  ∀ i : nat, picked_status (widgets r) = Some i →
             (i < length status_options)%nat.

Section Script.

(** The spreadsheet engine is not part of the repository.  [W] is the
    state of the world it runs in and [xlsxwriter_save] what closing the
    [pd.ExcelWriter(output, engine='xlsxwriter')] does there: the bytes
    left in [output], or the exception raised. *)
Variable W : Type.
Variable xlsxwriter_save : Workbook → W → result (list byte) * W.

(** Lines 36-40. *)
Definition to_excel (df : DataFrame) (w : W) : result (list byte) * W :=
  xlsxwriter_save [DataFrame_to_excel df false "Attendance"] w.

(** Lines 30-50: the table and the export, or the guidance message. *)
Definition display (ss : session_state) (w : W)
  : list element * W * option exn :=
  match attendance_data ss with
  | [] =>
      ([info "No attendance records yet. Please submit the form above."],
       w, None)
  | records =>
      let df := DataFrame_of_records records in
      let shown := [subheader "📋 Attendance Records"; dataframe df] in
      match to_excel df w with
      | (Ok excel_data, w') =>
          (shown ++ [download_button "📥 Download Attendance as Excel"
                       excel_data file_name_xlsx mime_xlsx],
           w', None)
      | (Raise e, w') => (shown, w', Some e)
      end
  end.

(** The whole script. *)
Definition script (r : Run) (ss : session_state) (w : W) : Outcome W :=
  let ss0 := init_session ss in
  let '(ss1, form_elements) := attendance_form r ss0 in
  let '(shown, w', e) := display ss1 w in
  {| r_state := ss1;
     r_world := w';
     r_elements := title "🕒 Employee Attendance Tracker"
                   :: form_elements ++ shown;
     r_exception := e |}.

(** A session: the script run once per interaction, each execution
    starting from the session state and the world the previous one
    left.  An exception ends an execution, not the session. *)
Fixpoint session (runs : list Run) (ss : session_state) (w : W)
  : list (Outcome W) :=
  match runs with
  | [] => []
  | r :: runs' =>
      let o := script r ss w in
      o :: session runs' (r_state o) (r_world o)
  end.

(** The session state and the world after a session. *)
Definition final (runs : list Run) (ss : session_state) (w : W)
  : session_state * W :=
  fold_left (λ sw r, let o := script r sw.1 sw.2 in (r_state o, r_world o))
            runs (ss, w).

(** The table an execution put on the page, if it put one. *)
Fixpoint shown_table (els : list element) : option DataFrame :=
  match els with
  | [] => None
  | dataframe df :: _ => Some df
  | _ :: els' => shown_table els'
  end.

(** The same interaction with the submit button pressed. *)
Definition press_submit (r : Run) : Run :=
  {| widgets := widgets r; submitted := true;
     now_form := now_form r; now_submit := now_submit r |}.

(** Whether an execution put the download button on the page. *)
Definition export_offered (o : Outcome W) : bool :=
  existsb is_download_button (r_elements o).

(** *** The frame of a list of attendance records *)

Lemma frame_columns_step (cols : list string) (ds : list dict) :
  (∀ d, d ∈ ds → new_keys cols d = []) →
  fold_left (λ cols d, cols ++ new_keys cols d) ds cols = cols.
Proof.
  induction ds as [|d ds IH]; intros Hnew; [done|].
  cbn [fold_left]. rewrite (Hnew d) by left. rewrite app_nil_r.
  apply IH. intros d' Hd'. apply Hnew. by right.
Qed.

Lemma frame_columns_records (r : AttendanceRecord) (rs : list AttendanceRecord) :
  frame_columns (to_dict <$> (r :: rs)) = field_names.
Proof.
  unfold frame_columns. cbn [fmap list_fmap fold_left].
  change ([] ++ new_keys [] (to_dict r)) with field_names.
  apply frame_columns_step.
  intros d [r' [-> _]]%list_elem_of_fmap. reflexivity.
Qed.

Lemma frame_row_record (r : AttendanceRecord) :
  frame_row field_names (to_dict r) = cells r.
Proof. reflexivity. Qed.

Lemma DataFrame_of_attendance (r : AttendanceRecord) (rs : list AttendanceRecord) :
  DataFrame_of_records (to_dict <$> (r :: rs))
  = {| columns := field_names; data := cells <$> (r :: rs) |}.
Proof.
  unfold DataFrame_of_records. rewrite frame_columns_records. f_equal.
  rewrite <- list_fmap_compose. apply list_fmap_ext.
  intros i x _. apply frame_row_record.
Qed.

(** *** The session state across the script *)

Lemma attendance_data_init (ss : session_state) :
  attendance_data (init_session ss) = attendance_data ss.
Proof.
  unfold init_session, attendance_data.
  destruct (ss !! "attendance_data") as [l|] eqn:E.
  - by rewrite E.
  - by rewrite lookup_insert_eq.
Qed.

Lemma attendance_data_form (r : Run) (ss : session_state) :
  attendance_data (attendance_form r ss).1
  = attendance_data ss ++ (if submitted r then [to_dict (entry r)] else []).
Proof.
  unfold attendance_form. destruct (submitted r); cbn [fst].
  - unfold attendance_data at 1. by rewrite lookup_insert_eq.
  - by rewrite app_nil_r.
Qed.

Lemma script_state (r : Run) (ss : session_state) (w : W) :
  r_state (script r ss w) = (attendance_form r (init_session ss)).1.
Proof.
  unfold script. destruct (attendance_form r (init_session ss)) as [ss1 els].
  by destruct (display ss1 w) as [[shown w'] e].
Qed.

Lemma attendance_data_script (r : Run) (ss : session_state) (w : W) :
  attendance_data (r_state (script r ss w))
  = attendance_data ss ++ (if submitted r then [to_dict (entry r)] else []).
Proof.
  by rewrite script_state, attendance_data_form, attendance_data_init.
Qed.

Lemma final_snoc (runs : list Run) (r : Run) (ss : session_state) (w : W) :
  final (runs ++ [r]) ss w
  = let sw := final runs ss w in
    let o := script r sw.1 sw.2 in (r_state o, r_world o).
Proof. unfold final. by rewrite fold_left_app. Qed.

Lemma attendance_data_final (runs : list Run) (ss : session_state) (w : W) :
  attendance_data (final runs ss w).1
  = attendance_data ss ++ ((to_dict ∘ entry) <$> filter submitted runs).
Proof.
  induction runs as [|r runs IH] using rev_ind.
  - by rewrite app_nil_r.
  - rewrite final_snoc. cbn zeta. cbn [fst].
    rewrite attendance_data_script, IH, filter_app, fmap_app, <- app_assoc.
    f_equal. f_equal. destruct (submitted r) eqn:E.
    + rewrite filter_cons_True by (by rewrite E). by rewrite filter_nil.
    + rewrite filter_cons_False by (rewrite E; exact id). by rewrite filter_nil.
Qed.

Lemma filter_press_submit (runs : list Run) :
  filter submitted (press_submit <$> runs) = press_submit <$> runs.
Proof.
  induction runs as [|r runs IH]; [done|].
  rewrite fmap_cons, filter_cons_True by done. by rewrite IH.
Qed.

(** *** The page for a log of attendance records *)

Lemma imap_no_index (rows : list (list value)) :
  imap (λ i row, index_cell false i ++ row) rows = rows.
Proof.
  induction rows as [|row rows IH]; [done|].
  cbn [imap]. unfold compose. f_equal. exact IH.
Qed.

Lemma to_excel_attendance (r : AttendanceRecord) (rs : list AttendanceRecord) (w : W) :
  to_excel (DataFrame_of_records (to_dict <$> (r :: rs))) w
  = xlsxwriter_save [export_sheet (r :: rs)] w.
Proof.
  unfold to_excel, DataFrame_to_excel. rewrite DataFrame_of_attendance.
  cbn [data columns]. by rewrite imap_no_index.
Qed.

Lemma display_attendance (ss : session_state) (w : W)
    (r : AttendanceRecord) (rs : list AttendanceRecord) :
  attendance_data ss = to_dict <$> (r :: rs) →
  display ss w
  = let shown := [subheader "📋 Attendance Records"; dataframe (frame (r :: rs))] in
    match xlsxwriter_save [export_sheet (r :: rs)] w with
    | (Ok excel_data, w') =>
        (shown ++ [download_button "📥 Download Attendance as Excel"
                     excel_data file_name_xlsx mime_xlsx], w', None)
    | (Raise e, w') => (shown, w', Some e)
    end.
Proof.
  intros Hlog. unfold display. rewrite Hlog, fmap_cons.
  cbv beta iota zeta. rewrite <- (fmap_cons to_dict).
  rewrite to_excel_attendance, DataFrame_of_attendance. reflexivity.
Qed.

Lemma shown_table_display (ss : session_state) (w : W)
    (r : AttendanceRecord) (rs : list AttendanceRecord) :
  attendance_data ss = to_dict <$> (r :: rs) →
  shown_table (display ss w).1.1 = Some (frame (r :: rs)).
Proof.
  intros Hlog. rewrite (display_attendance _ _ _ _ Hlog). cbn zeta.
  destruct (xlsxwriter_save _ w) as [[b|e] w']; reflexivity.
Qed.

Lemma script_elements (r : Run) (ss : session_state) (w : W) :
  r_elements (script r ss w)
  = title "🕒 Employee Attendance Tracker"
    :: (attendance_form r (init_session ss)).2
    ++ (display (attendance_form r (init_session ss)).1 w).1.1.
Proof.
  unfold script. destruct (attendance_form r (init_session ss)) as [ss1 els].
  cbn [fst snd]. by destruct (display ss1 w) as [[shown w'] e].
Qed.

Lemma script_world (r : Run) (ss : session_state) (w : W) :
  r_world (script r ss w)
  = (display (attendance_form r (init_session ss)).1 w).1.2.
Proof.
  unfold script. destruct (attendance_form r (init_session ss)) as [ss1 els].
  cbn [fst snd]. by destruct (display ss1 w) as [[shown w'] e].
Qed.

Lemma script_exception (r : Run) (ss : session_state) (w : W) :
  r_exception (script r ss w)
  = (display (attendance_form r (init_session ss)).1 w).2.
Proof.
  unfold script. destruct (attendance_form r (init_session ss)) as [ss1 els].
  cbn [fst snd]. by destruct (display ss1 w) as [[shown w'] e].
Qed.

Lemma shown_table_script (r : Run) (ss : session_state) (w : W)
    (x : AttendanceRecord) (xs : list AttendanceRecord) :
  attendance_data (r_state (script r ss w)) = to_dict <$> (x :: xs) →
  shown_table (r_elements (script r ss w)) = Some (frame (x :: xs)).
Proof.
  rewrite script_state, script_elements. intros Hlog.
  pose proof (shown_table_display _ w _ _ Hlog) as Hshown.
  unfold attendance_form in *. by destruct (submitted r).
Qed.

Lemma session_shows (runs : list Run) :
  ∀ (ss : session_state) (w : W) (rs0 : list AttendanceRecord) (k : nat) (o : Outcome W),
    attendance_data ss = to_dict <$> rs0 →
    session (press_submit <$> runs) ss w !! k = Some o →
    shown_table (r_elements o)
    = Some (frame (rs0 ++ (entry <$> take (S k) (press_submit <$> runs)))).
Proof.
  induction runs as [|r runs IH]; intros ss w rs0 k o Hlog Hk; [done|].
  rewrite fmap_cons in *. cbn [session] in Hk.
  assert (attendance_data (r_state (script (press_submit r) ss w))
          = to_dict <$> (rs0 ++ [entry (press_submit r)])) as Hnext.
  { by rewrite attendance_data_script, Hlog, fmap_app. }
  destruct k as [|k].
  - injection Hk as <-. cbn [take fmap list_fmap].
    destruct rs0; apply shown_table_script; exact Hnext.
  - cbn [lookup list_lookup] in Hk.
    rewrite (IH _ _ _ _ _ Hnext Hk). f_equal. f_equal.
    by rewrite <- app_assoc.
Qed.

Lemma length_session (runs : list Run) :
  ∀ (ss : session_state) (w : W), length (session runs ss w) = length runs.
Proof.
  induction runs as [|r runs IH]; intros ss w; [done|].
  cbn [session length]. by rewrite IH.
Qed.

Lemma final_cons (r : Run) (runs : list Run) (ss : session_state) (w : W) :
  final (r :: runs) ss w
  = final runs (r_state (script r ss w)) (r_world (script r ss w)).
Proof. reflexivity. Qed.

(** [final] is where the last execution of [session] ends. *)
Lemma final_last (runs : list Run) :
  ∀ (ss : session_state) (w : W),
    final runs ss w
    = from_option (λ o, (r_state o, r_world o)) (ss, w) (last (session runs ss w)).
Proof.
  induction runs as [|r runs IH]; intros ss w; [done|].
  rewrite final_cons, IH. cbn [session].
  destruct (session runs _ _) as [|o os] eqn:Hos; [done|].
  rewrite last_cons_cons.
  destruct (last (o :: os)) as [o'|] eqn:Hlast; [done|].
  by apply last_None in Hlast.
Qed.

Lemma attendance_data_empty : attendance_data ∅ = [].
Proof. unfold attendance_data. by rewrite lookup_empty. Qed.

Lemma script_other_keys (r : Run) (ss : session_state) (w : W) (k : string) :
  k ≠ "attendance_data" → r_state (script r ss w) !! k = ss !! k.
Proof.
  intros Hk. rewrite script_state. unfold attendance_form.
  assert (init_session ss !! k = ss !! k) as Hinit.
  { unfold init_session. destruct (ss !! "attendance_data"); [done|].
    by rewrite lookup_insert_ne. }
  destruct (submitted r); cbn [fst]; [|done]. by rewrite lookup_insert_ne.
Qed.

Lemma session_lookup (runs : list Run) :
  ∀ (ss : session_state) (w : W) (k : nat) (o : Outcome W),
    session runs ss w !! k = Some o →
    ∃ r, runs !! k = Some r
         ∧ o = script r (final (take k runs) ss w).1 (final (take k runs) ss w).2.
Proof.
  induction runs as [|r runs IH]; intros ss w k o Hk; [done|].
  cbn [session] in Hk. destruct k as [|k].
  - injection Hk as <-. by exists r.
  - cbn [lookup list_lookup] in Hk. destruct (IH _ _ _ _ Hk) as (r' & Hr' & ->).
    exists r'. split; [done|]. by rewrite firstn_cons, final_cons.
Qed.

Lemma script_page (r : Run) (ss : session_state) (w : W)
    (rs : list AttendanceRecord) :
  attendance_data (r_state (script r ss w)) = to_dict <$> rs →
  shown_table (r_elements (script r ss w))
  = match rs with [] => None | _ => Some (frame rs) end.
Proof.
  destruct rs as [|x xs]; [|apply shown_table_script].
  rewrite script_state, script_elements. intros Hlog.
  unfold display. rewrite Hlog. cbn [fmap list_fmap fst].
  unfold attendance_form. by destruct (submitted r).
Qed.

(** *** The claims about the attendance log *)

Lemma session_log_at (runs : list Run) (w : W) (k : nat) (o : Outcome W) :
  session runs ∅ w !! k = Some o →
  attendance_data (r_state o)
  = to_dict <$> (entry <$> filter submitted (take (S k) runs)).
Proof.
  intros Hk. destruct (session_lookup _ _ _ _ _ Hk) as (r & Hr & ->).
  rewrite attendance_data_script, attendance_data_final, attendance_data_empty.
  rewrite (take_S_r _ _ _ Hr), filter_app, !fmap_app. cbn [app].
  rewrite <- list_fmap_compose. f_equal.
  destruct (submitted r) eqn:E.
  - rewrite filter_cons_True by (by rewrite E). by rewrite filter_nil.
  - rewrite filter_cons_False by (rewrite E; exact id). by rewrite filter_nil.
Qed.

Lemma filter_all_submitted (runs : list Run) :
  Forall (λ r, submitted r = true) runs → filter submitted runs = runs.
Proof.
  induction 1 as [|r runs Hr _ IH]; [done|].
  rewrite filter_cons_True by (by rewrite Hr). by rewrite IH.
Qed.

(** C1. In a session, which starts with an empty state and runs the script
    once per interaction, whether the form is submitted in it or not, the N
    submissions leave exactly N records in the log, in submission order and
    none merged or dropped by the executions in between.  Every execution
    ends with a page, whose log and table hold the submissions made so far:
    no table before the first, and one row per submission after.  Two
    submissions for the same employee, name and date that differ in the
    status only are both kept, with renders before and between them. *)
Theorem C1_submissions_retained_in_order (runs : list Run) (w : W) :
  let submissions := filter submitted runs in
  let log := attendance_data (final runs ∅ w).1 in
  log = (to_dict ∘ entry) <$> submissions
  ∧ length log = length submissions
  ∧ (Forall (λ r, submitted r = true) runs → length log = length runs)
  ∧ length (session runs ∅ w) = length runs
  ∧ (∀ k : nat, (k < length runs)%nat →
       ∃ o, session runs ∅ w !! k = Some o
            ∧ attendance_data (r_state o)
              = (to_dict ∘ entry) <$> filter submitted (take (S k) runs)
            ∧ shown_table (r_elements o)
              = match filter submitted (take (S k) runs) with
                | [] => None
                | so_far =>
                    Some {| columns := field_names;
                            data := (cells ∘ entry) <$> so_far |}
                end)
  ∧ (∀ (t0 t1 t2 t3 t4 t5 : Timestamp),
       let d := ymd 2024 1 10 in
       let render (t : Timestamp) :=
         {| widgets := {| typed_emp_id := None; typed_emp_name := None;
                          picked_status := None; picked_date := None |};
            submitted := false; now_form := t; now_submit := t |} in
       let alice (status : nat) (t t' : Timestamp) :=
         {| widgets := {| typed_emp_id := Some "E1";
                          typed_emp_name := Some "Alice";
                          picked_status := Some status;
                          picked_date := Some d |};
            submitted := true; now_form := t; now_submit := t' |} in
       let present := mkRecord d "E1" "Alice" "Present" t2 in
       let remote := mkRecord d "E1" "Alice" "Remote" t5 in
       let log2 :=
         attendance_data
           (final [render t0; alice 0%nat t1 t2; render t3; alice 2%nat t4 t5]
                  ∅ w).1 in
       log2 = [to_dict present; to_dict remote]
       ∧ length log2 = 2%nat
       ∧ to_dict present ≠ to_dict remote).
Proof.
  cbv zeta.
  assert (attendance_data (final runs ∅ w).1
          = (to_dict ∘ entry) <$> filter submitted runs) as Hlog.
  { by rewrite attendance_data_final, attendance_data_empty. }
  split_and!.
  - exact Hlog.
  - by rewrite Hlog, length_fmap.
  - intros Hall. by rewrite Hlog, length_fmap, filter_all_submitted.
  - apply length_session.
  - intros k Hk.
    destruct (lookup_lt_is_Some_2 (session runs ∅ w) k) as [o Ho].
    { by rewrite length_session. }
    exists o. pose proof (session_log_at _ _ _ _ Ho) as Hat.
    split_and!; [done|by rewrite Hat, <- list_fmap_compose|].
    destruct (session_lookup _ _ _ _ _ Ho) as (r & _ & Heq).
    rewrite Heq in Hat |- *. rewrite (script_page _ _ _ _ Hat).
    destruct (filter submitted (take (S k) runs)) as [|x xs]; [done|].
    rewrite (list_fmap_compose entry cells). reflexivity.
  - intros t0 t1 t2 t3 t4 t5. split_and!.
    + by rewrite attendance_data_final, attendance_data_empty.
    + by rewrite attendance_data_final, attendance_data_empty.
    + intros Heq. discriminate Heq.
Qed.

(** C2, as the script has it.  The download button is on the page exactly when
    the log is non-empty and the serialization of this execution did not
    raise; whatever is offered for download is the serialization of the
    non-empty log; and with an empty log the page is the title and the
    guidance message, with no table, no button and no call of the engine. *)
Theorem C2_export_offered_iff_records_and_no_failure
    (r : Run) (ss : session_state) (w : W) :
  let o := script r ss w in
  let log := attendance_data (r_state o) in
  (export_offered o = true ↔ log ≠ [] ∧ r_exception o = None)
  ∧ (∀ (label : string) (bytes : list byte) (file mime : string),
       download_button label bytes file mime ∈ r_elements o →
       log ≠ [] ∧ (to_excel (DataFrame_of_records log) w).1 = Ok bytes)
  ∧ (log = [] →
     r_elements o
     = [title "🕒 Employee Attendance Tracker";
        info "No attendance records yet. Please submit the form above."]
     ∧ shown_table (r_elements o) = None
     ∧ export_offered o = false
     ∧ r_world o = w
     ∧ r_exception o = None).
Proof.
  cbv zeta. unfold export_offered.
  rewrite script_elements, script_exception, script_world, script_state.
  pose proof (attendance_data_form r (init_session ss)) as Hform.
  unfold attendance_form in *. destruct (submitted r); cbn [fst snd] in *.
  - (* submitted: the log ends with the new record *)
    set (ss1 := <["attendance_data" := _]> (init_session ss)) in *.
    unfold display.
    destruct (attendance_data ss1) as [|d ds] eqn:Hlog.
    { by destruct (attendance_data (init_session ss)). }
    destruct (to_excel _ w) as [[b|e] w'] eqn:Hsave; cbn; split_and!;
      try done; try (split; [done | by intros [_ ?]]).
    + intros label bytes file mime Hin. set_unfold in Hin.
      destruct Hin as [?|[?|[?|[?|[?|?]]]]]; try done. by simplify_eq.
    + intros label bytes file mime Hin. set_unfold in Hin.
      destruct Hin as [?|[?|[?|[?|?]]]]; done.
  - unfold display.
    destruct (attendance_data (init_session ss)) as [|d ds] eqn:Hlog.
    { cbn. split_and!; try done.
      - split; [done | by intros [? _]].
      - intros label bytes file mime Hin. set_unfold in Hin.
        destruct Hin as [?|[?|?]]; done. }
    destruct (to_excel _ w) as [[b|e] w'] eqn:Hsave; cbn; split_and!;
      try done; try (split; [done | by intros [_ ?]]).
    + intros label bytes file mime Hin. set_unfold in Hin.
      destruct Hin as [?|[?|[?|[?|?]]]]; try done. by simplify_eq.
    + intros label bytes file mime Hin. set_unfold in Hin.
      destruct Hin as [?|[?|[?|?]]]; done.
Qed.

(** C4. For a non-empty log the export hands the engine a workbook with the
    single sheet "Attendance": the header row Date, Employee ID, Employee
    Name, Status, Timestamp, then one row of those five cells per record, in
    order and with no index cell; the bytes the engine returns are offered as
    employee_attendance.xlsx with the spreadsheet MIME type. *)
Theorem C4_export_layout
    (r : AttendanceRecord) (rs : list AttendanceRecord)
    (ss : session_state) (w : W) :
  let log := r :: rs in
  let df := DataFrame_of_records (to_dict <$> log) in
  let sheet := DataFrame_to_excel df false "Attendance" in
  columns df = ["Date"; "Employee ID"; "Employee Name"; "Status"; "Timestamp"]
  ∧ sheet_name sheet = "Attendance"
  ∧ sheet_rows sheet
    = [VStr "Date"; VStr "Employee ID"; VStr "Employee Name"; VStr "Status";
       VStr "Timestamp"]
      :: ((λ x, [VDate (Date x); VStr (Employee_ID x); VStr (Employee_Name x);
                 VStr (Status x); VTimestamp (Timestamp_ x)]) <$> log)
  ∧ length (sheet_rows sheet) = S (length log)
  ∧ Forall (λ row, length row = 5%nat) (sheet_rows sheet)
  ∧ to_excel df w = xlsxwriter_save [sheet] w
  ∧ (attendance_data ss = to_dict <$> log →
     ∀ (bytes : list byte) (w' : W),
       xlsxwriter_save [sheet] w = (Ok bytes, w') →
       display ss w
       = ([subheader "📋 Attendance Records";
           dataframe df;
           download_button "📥 Download Attendance as Excel" bytes
             "employee_attendance.xlsx"
             "application/vnd.openxmlformats-officedocument.spreadsheetml.sheet"],
          w', None)).
Proof.
  cbv zeta. rewrite DataFrame_of_attendance.
  assert (DataFrame_to_excel (frame (r :: rs)) false "Attendance"
          = export_sheet (r :: rs)) as Hsheet.
  { unfold DataFrame_to_excel, export_sheet. cbn [frame data columns].
    by rewrite imap_no_index. }
  fold (frame (r :: rs)). rewrite Hsheet. split_and!; try done.
  - cbn [export_sheet sheet_rows length]. by rewrite length_fmap.
  - cbn [export_sheet sheet_rows]. constructor; [done|].
    apply Forall_fmap, Forall_true. done.
  - by rewrite <- to_excel_attendance, DataFrame_of_attendance.
  - intros Hlog bytes w' Hsave.
    rewrite (display_attendance _ _ _ _ Hlog). cbv zeta. by rewrite Hsave.
Qed.

(** C6. When the serialization raises, the execution ends with that exception:
    the engine was called once and not again, no download button is on the
    page, and the session state is the one the form left. *)
Theorem C6_serialization_failure_surfaces
    (r : Run) (ss : session_state) (w w' : W) (e : exn) :
  let ss1 := (attendance_form r (init_session ss)).1 in
  attendance_data ss1 ≠ [] →
  to_excel (DataFrame_of_records (attendance_data ss1)) w = (Raise e, w') →
  let o := script r ss w in
  r_exception o = Some e
  ∧ r_world o = w'
  ∧ export_offered o = false
  ∧ shown_table (r_elements o) = Some (DataFrame_of_records (attendance_data ss1))
  ∧ r_state o = ss1.
Proof.
  cbv zeta. intros Hlog Hsave. unfold export_offered.
  rewrite script_elements, script_exception, script_world, script_state.
  unfold display.
  destruct (attendance_data (attendance_form r (init_session ss)).1)
    as [|d ds] eqn:Hdata; [done|].
  rewrite Hsave. unfold attendance_form. by destruct (submitted r).
Qed.



(** *** Further properties of the log *)

(** X1. Whatever the session state and the interactions, the log after a
    session is the log before it followed by the records of the submitted
    interactions, in order: an execution without a submission adds nothing,
    and no other key of the session state is touched. *)
Theorem X1_log_after_any_session
    (runs : list Run) (ss : session_state) (w : W) :
  attendance_data (final runs ss w).1
  = attendance_data ss ++ ((to_dict ∘ entry) <$> filter submitted runs)
  ∧ (∀ k : string, k ≠ "attendance_data" → (final runs ss w).1 !! k = ss !! k)
  ∧ (filter submitted runs = [] →
     attendance_data (final runs ss w).1 = attendance_data ss).
Proof.
  split_and!.
  - apply attendance_data_final.
  - intros k Hk. revert ss w.
    induction runs as [|r runs IH]; intros ss w; [done|].
    by rewrite final_cons, IH, script_other_keys.
  - intros Hnone. by rewrite attendance_data_final, Hnone, app_nil_r.
Qed.

(** X2. The log only grows at its end: what it holds at any point of a
    session is a prefix of what it holds at any later point. *)
Theorem X2_log_is_append_only
    (runs later : list Run) (ss : session_state) (w : W) :
  attendance_data (final runs ss w).1
  `prefix_of` attendance_data (final (runs ++ later) ss w).1.
Proof.
  rewrite !attendance_data_final, filter_app, fmap_app, app_assoc.
  by apply prefix_app_r.
Qed.

(** X3. In a session that starts empty, every execution either shows no table
    (and then the log is empty) or shows the records submitted so far, under
    the five field names, every row with its five cells and none missing. *)
Theorem X3_table_is_rectangular
    (runs : list Run) (w : W) (k : nat) (o : Outcome W) :
  session runs ∅ w !! k = Some o →
  match shown_table (r_elements o) with
  | None => attendance_data (r_state o) = []
  | Some df =>
      columns df = field_names
      ∧ data df = (cells ∘ entry) <$> filter submitted (take (S k) runs)
      ∧ Forall (λ row, length row = 5%nat ∧ VNaN ∉ row) (data df)
  end.
Proof.
  intros Hk. destruct (session_lookup _ _ _ _ _ Hk) as (r & Hr & ->).
  set (before := final (take k runs) ∅ w).
  assert (attendance_data (r_state (script r before.1 before.2))
          = to_dict <$> (entry <$> filter submitted (take (S k) runs))) as Hlog.
  { rewrite attendance_data_script. unfold before.
    rewrite attendance_data_final, attendance_data_empty.
    rewrite (take_S_r _ _ _ Hr), filter_app, !fmap_app. cbn [app].
    rewrite <- list_fmap_compose. f_equal.
    destruct (submitted r) eqn:E.
    - rewrite filter_cons_True by (by rewrite E). by rewrite filter_nil.
    - rewrite filter_cons_False by (rewrite E; exact id). by rewrite filter_nil. }
  rewrite (script_page _ _ _ _ Hlog).
  destruct (entry <$> filter submitted (take (S k) runs)) as [|x xs] eqn:Hrs.
  - by rewrite Hlog.
  - split_and!; [done| |].
    + cbn [frame data]. by rewrite <- Hrs, <- list_fmap_compose.
    + cbn [frame data]. apply Forall_fmap, Forall_true. intros rec.
      split; [done|]. unfold cells. intros Hin.
      repeat (apply elem_of_cons in Hin as [Hin|Hin]; [discriminate|]).
      by apply elem_of_nil in Hin.
Qed.

(** X4. When every interaction picked its status among the options of the
    select box, every record of the log carries one of the four statuses. *)
Theorem X4_status_is_enumerated
    (runs : list Run) (w : W) (d : dict) :
  Forall picks_an_option runs →
  d ∈ attendance_data (final runs ∅ w).1 →
  ∃ s, dict_get "Status" d = Some (VStr s)
       ∧ s ∈ ["Present"; "Absent"; "Remote"; "On Leave"].
Proof.
  intros Hpicks. rewrite attendance_data_final, attendance_data_empty.
  cbn [app]. intros (r & -> & Hr)%list_elem_of_fmap.
  apply list_elem_of_filter in Hr as [_ Hr].
  rewrite Forall_forall in Hpicks. specialize (Hpicks r Hr).
  exists (selectbox status_options (picked_status (widgets r))).
  split; [done|]. unfold picks_an_option in Hpicks. unfold selectbox.
  destruct (picked_status (widgets r)) as [i|]; [|set_solver].
  specialize (Hpicks i eq_refl). cbn [default].
  destruct i as [|[|[|[|i]]]]; cbn in *; try set_solver. lia.
Qed.

(** X5. A failed export loses nothing: the record submitted in the execution
    that raised is in the log, and the next execution in which the engine
    returns bytes offers them for download. *)
Theorem X5_record_survives_failed_export
    (r r' : Run) (ss : session_state) (w w' : W) (e : exn) (bytes : list byte) :
  let o := script r ss w in
  let o' := script r' (r_state o) (r_world o) in
  submitted r = true → submitted r' = false →
  r_exception o = Some e →
  to_excel (DataFrame_of_records (attendance_data (r_state o))) (r_world o)
  = (Ok bytes, w') →
  attendance_data (r_state o) = attendance_data ss ++ [to_dict (entry r)]
  ∧ attendance_data (r_state o') = attendance_data (r_state o)
  ∧ r_exception o' = None
  ∧ download_button "📥 Download Attendance as Excel" bytes
      "employee_attendance.xlsx"
      "application/vnd.openxmlformats-officedocument.spreadsheetml.sheet"
    ∈ r_elements o'.
Proof.
  cbv zeta. intros Hr Hr' _ Hsave.
  assert (attendance_data (r_state (script r ss w))
          = attendance_data ss ++ [to_dict (entry r)]) as Hlog.
  { by rewrite attendance_data_script, Hr. }
  assert (attendance_data (r_state (script r' (r_state (script r ss w))
                                      (r_world (script r ss w))))
          = attendance_data (r_state (script r ss w))) as Hlog'.
  { by rewrite attendance_data_script, Hr', app_nil_r. }
  set (o := script r ss w) in *.
  assert (display (r_state (script r' (r_state o) (r_world o))) (r_world o)
          = ([subheader "📋 Attendance Records";
              dataframe (DataFrame_of_records (attendance_data (r_state o)));
              download_button "📥 Download Attendance as Excel" bytes
                file_name_xlsx mime_xlsx], w', None)) as Hpage.
  { unfold display. rewrite Hlog'.
    destruct (attendance_data (r_state o)) as [|d ds] eqn:E.
    - by destruct (attendance_data ss).
    - by rewrite Hsave. }
  split_and!; [done|done| |].
  - rewrite script_exception, <- (script_state r' (r_state o) (r_world o)).
    by rewrite Hpage.
  - rewrite script_elements, <- (script_state r' (r_state o) (r_world o)).
    rewrite Hpage. cbn [fst].
    apply elem_of_cons. right. apply elem_of_app. right.
    do 2 (apply elem_of_cons; right). by apply elem_of_cons; left.
Qed.

(** X7. After any session that starts empty, the next page exports exactly the
    submitted records: with none it is the guidance message and the engine is
    left alone; otherwise the engine gets the sheet of those records, header
    first, and its bytes or its exception decide the rest of the page. *)
Theorem X7_export_after_session
    (runs : list Run) (w w0 : W) :
  let entries := entry <$> filter submitted runs in
  display (final runs ∅ w0).1 w
  = match entries with
    | [] => ([info "No attendance records yet. Please submit the form above."],
             w, None)
    | _ =>
        let shown := [subheader "📋 Attendance Records";
                      dataframe (frame entries)] in
        match xlsxwriter_save [export_sheet entries] w with
        | (Ok excel_data, w') =>
            (shown ++ [download_button "📥 Download Attendance as Excel"
                         excel_data file_name_xlsx mime_xlsx], w', None)
        | (Raise e, w') => (shown, w', Some e)
        end
    end
  ∧ length (sheet_rows (export_sheet entries))
    = S (length (filter submitted runs)).
Proof.
  cbv zeta. split.
  - pose proof (attendance_data_final runs ∅ w0) as Hlog.
    rewrite attendance_data_empty in Hlog. cbn [app] in Hlog.
    rewrite list_fmap_compose in Hlog.
    destruct (entry <$> filter submitted runs) as [|x xs].
    + unfold display. by rewrite Hlog.
    + by rewrite (display_attendance _ _ _ _ Hlog).
  - cbn [export_sheet sheet_rows length]. by rewrite !length_fmap.
Qed.

End Script.

(** What an execution costs the engine: one save when its log has records. *)
Definition saves_of {W : Type} (o : Outcome W) : nat :=
  match attendance_data (r_state o) with [] => 0%nat | _ => 1%nat end.

Lemma script_counted {W : Type} (save : Workbook → W → result (list byte) * W)
    (r : Run) (ss : session_state) (w : W) (n : nat) :
  let o := script (W * nat) (counted save) r ss (w, n) in
  (r_world o).2 = (n + saves_of o)%nat.
Proof.
  cbv zeta. unfold saves_of. rewrite script_world, script_state.
  unfold display, to_excel, counted.
  destruct (attendance_data (attendance_form r (init_session ss)).1);
    cbn [fst snd]; [lia|].
  destruct (save _ w) as [[b|e] w']; cbn [fst snd]; lia.
Qed.

(** X6. The export is serialized while the page is built, not when the button
    is pressed: over a session the engine is called once for every execution
    whose log has records, never for one whose log is empty, and so at most
    once per execution. *)
Theorem X6_one_save_per_page_with_records
    (W : Type) (save : Workbook → W → result (list byte) * W)
    (runs : list Run) (ss : session_state) (w : W) (n : nat) :
  let outcomes := session (W * nat) (counted save) runs ss (w, n) in
  let calls := ((final (W * nat) (counted save) runs ss (w, n)).2.2 - n)%nat in
  calls = sum_list (saves_of <$> outcomes)
  ∧ (calls ≤ length runs)%nat
  ∧ (n ≤ (final (W * nat) (counted save) runs ss (w, n)).2.2)%nat.
Proof.
  cbv zeta.
  assert (∀ ss w n,
            (final (W * nat) (counted save) runs ss (w, n)).2.2
            = (n + sum_list (saves_of
                   <$> session (W * nat) (counted save) runs ss (w, n)))%nat
            ∧ (sum_list (saves_of
                   <$> session (W * nat) (counted save) runs ss (w, n))
               ≤ length runs)%nat) as Hcount.
  { clear ss w n. induction runs as [|r runs IH]; intros ss w n.
    - cbn. lia.
    - rewrite final_cons. cbn [session fmap list_fmap sum_list length].
      pose proof (script_counted save r ss w n) as Hone. cbv zeta in Hone.
      destruct (r_world (script (W * nat) (counted save) r ss (w, n)))
        as [w1 n1] eqn:Hworld. cbn [snd] in Hone.
      destruct (IH (r_state (script (W * nat) (counted save) r ss (w, n))) w1 n1)
        as [-> Hle].
      change (id (saves_of ?o)) with (saves_of o). split; [lia|].
      assert (saves_of (script (W * nat) (counted save) r ss (w, n)) ≤ 1)%nat.
      { unfold saves_of. by destruct (attendance_data _); lia. }
      lia. }
  destruct (Hcount ss w n) as [-> Hle]. lia.
Qed.

(** X3 on a first submission. *)
Lemma X3_witness :
  match shown_table (r_elements (script unit missing_engine first_submission ∅ tt)) with
  | None =>
      attendance_data (r_state (script unit missing_engine first_submission ∅ tt))
      = []
  | Some df =>
      columns df = field_names
      ∧ data df = (cells ∘ entry) <$> filter submitted (take 1 [first_submission])
      ∧ Forall (λ row, length row = 5%nat ∧ VNaN ∉ row) (data df)
  end.
Proof.
  apply (X3_table_is_rectangular unit missing_engine [first_submission] tt 0%nat).
  reflexivity.
Defined.

(** X4 on a session of two submissions, the second with the third option
    picked: its record carries "Remote". *)
Lemma X4_witness :
  (∃ s, dict_get "Status" (to_dict (entry remote_submission)) = Some (VStr s)
        ∧ s ∈ ["Present"; "Absent"; "Remote"; "On Leave"])
  ∧ dict_get "Status" (to_dict (entry remote_submission)) = Some (VStr "Remote").
Proof.
  split; [|reflexivity].
  apply (X4_status_is_enumerated unit missing_engine
           [first_submission; remote_submission] tt).
  - constructor; [|constructor; [|constructor]].
    + intros i Hi. discriminate Hi.
    + intros i Hi. injection Hi as <-. cbn. lia.
  - vm_compute. apply list_elem_of_further, list_elem_of_here.
Defined.

(** X5 on the engine that fails once: the second execution, a plain rerun,
    offers the record of the first. *)
Lemma X5_witness :
  let rerun := {| widgets := widgets first_submission; submitted := false;
                  now_form := now_form first_submission;
                  now_submit := now_submit first_submission |} in
  let o := script nat flaky_engine first_submission ∅ 0%nat in
  let o' := script nat flaky_engine rerun (r_state o) (r_world o) in
  attendance_data (r_state o) = attendance_data ∅ ++ [to_dict (entry first_submission)]
  ∧ attendance_data (r_state o') = attendance_data (r_state o)
  ∧ r_exception o' = None
  ∧ download_button "📥 Download Attendance as Excel" []
      "employee_attendance.xlsx"
      "application/vnd.openxmlformats-officedocument.spreadsheetml.sheet"
    ∈ r_elements o'.
Proof.
  apply (X5_record_survives_failed_export nat flaky_engine first_submission
           _ ∅ 0%nat 2%nat "OSError: write failed" []).
  - reflexivity.
  - reflexivity.
  - by vm_compute.
  - by vm_compute.
Defined.

(** *** The export read back *)








(** What the writer makes of the texts it does not store as they are. *)
Example write_cell_of_texts :
  write_cell <$> [VStr ""; VStr "=1+1"; VStr "https://example.com"; VStr "E1"]
  = [XEmpty; XFormula "=1+1"; XRewritten "https://example.com"; XString "E1"].
Proof. reflexivity. Qed.

(** The serial numbers of two dates, as Excel shows them. *)
Example serial_numbers :
  serial_of_date (ymd 2024 1 10) = 45301 ∧ serial_of_date (ymd 1900 1 1) = 1.
Proof. by vm_compute. Qed.

(** C2 as stated fails: after a first submission on an engine that raises,
    the log holds one record and no export is offered. *)
Lemma C2_counterexample :
  let o := script unit missing_engine first_submission ∅ tt in
  length (attendance_data (r_state o)) = 1%nat
  ∧ attendance_data (r_state o) ≠ []
  ∧ export_offered unit o = false
  ∧ ¬ (export_offered unit o = true ↔ attendance_data (r_state o) ≠ []).
Proof.
  cbv zeta. split_and!; [by vm_compute | by vm_compute | by vm_compute |].
  intros [_ Hoffered].
  assert (export_offered unit
            (script unit missing_engine first_submission ∅ tt) = true) as H.
  { apply Hoffered. by vm_compute. }
  by vm_compute in H.
Qed.

(** C6 on an engine whose first call fails and whose second would succeed:
    the exception surfaces and the engine was called once. *)
Lemma C6_witness :
  let o := script nat flaky_engine first_submission ∅ 0%nat in
  r_exception o = Some "OSError: write failed"
  ∧ r_world o = 1%nat
  ∧ export_offered nat o = false
  ∧ shown_table (r_elements o)
    = Some (DataFrame_of_records
              (attendance_data (attendance_form first_submission (init_session ∅)).1))
  ∧ r_state o = (attendance_form first_submission (init_session ∅)).1.
Proof.
  apply (C6_serialization_failure_surfaces nat flaky_engine first_submission ∅
           0%nat 1%nat "OSError: write failed").
  - by vm_compute.
  - by vm_compute.
Defined.

(** The date of a record is read when the form is rendered and its timestamp
    when the record is appended: across midnight the two days differ. *)
Example date_and_timestamp_across_midnight :
  let r := {| widgets := {| typed_emp_id := Some "E1"; typed_emp_name := Some "Alice";
                            picked_status := None; picked_date := None |};
              submitted := true;
              now_form := mkTimestamp (ymd 2024 1 10) 86399999999000;
              now_submit := mkTimestamp (ymd 2024 1 11) 1000 |} in
  Date (entry r) = 738895 ∧ date_of (Timestamp_ (entry r)) = 738896.
Proof. by vm_compute. Qed.

(** Empty identifier and name are recorded as they are. *)
Example empty_fields_accepted :
  let r := {| widgets := {| typed_emp_id := Some ""; typed_emp_name := None;
                            picked_status := Some 3%nat;
                            picked_date := Some (ymd 2024 1 10) |};
              submitted := true;
              now_form := mkTimestamp (ymd 2024 1 11) 0;
              now_submit := mkTimestamp (ymd 2024 1 11) 5 |} in
  attendance_data (attendance_form r (init_session ∅)).1
  = [to_dict (mkRecord 738895 "" "" "On Leave" (mkTimestamp 738896 5))].
Proof. vm_compute. reflexivity. Qed.

(** On an engine that works, the first submission is offered for download. *)
Example first_submission_offered :
  r_elements (script unit (λ wb w, (Ok [], w)) first_submission ∅ tt)
  = [title "🕒 Employee Attendance Tracker";
     success "Attendance recorded!";
     subheader "📋 Attendance Records";
     dataframe
       {| columns := field_names;
          data := [[VDate 738895; VStr "E1"; VStr "Alice"; VStr "Present";
                    VTimestamp (mkTimestamp 738895 32400000001000)]] |};
     download_button "📥 Download Attendance as Excel" []
       "employee_attendance.xlsx"
       "application/vnd.openxmlformats-officedocument.spreadsheetml.sheet"].
Proof. vm_compute. reflexivity. Qed.

(** A frame built from dicts with different keys: pandas' rule for the
    columns, which the attendance records never exercise. *)
Example frame_of_ragged_dicts :
  DataFrame_of_records [[("a", VInt 1)]; [("b", VInt 2); ("a", VInt 3)]]
  = {| columns := ["a"; "b"];
       data := [[VInt 1; VNaN]; [VInt 3; VInt 2]] |}.
Proof. reflexivity. Qed.

(** With [index=True] pandas would put an index cell in front of each row. *)
Example to_excel_with_index :
  sheet_rows (DataFrame_to_excel {| columns := ["a"]; data := [[VInt 7]; [VInt 8]] |}
                true "S")
  = [[VStr ""; VStr "a"]; [VInt 0; VInt 7]; [VInt 1; VInt 8]].
Proof. reflexivity. Qed.

End Attendance.


(** ** The display and styling showcase, [5_Display_And_Style_Data.py] *)

Module Showcase.

(** *** Numbers *)

(** An [int64] read as a [float64], as [float(n)] and as pandas does when an
    integer column meets a float column: the nearest double, for
    [-2^63 < z < 2^63]. *)
Definition float_of_int (z : Z) : float :=
  if z <? 0
  then PrimFloat.opp (PrimFloat.of_uint63 (Uint63.of_Z (- z)))
  else PrimFloat.of_uint63 (Uint63.of_Z z).

(** *** The tables *)

(** A tuple appended to [rows] at line 36. *)
Record Tuple : Type := mkTuple {
  t_id : Z;
  t_product : string;
  t_category : string;
  t_units : Z;
  t_price : float;
  t_rating : float;
  t_in_stock : bool;
  t_added_on : date;
  t_url : string
}.

(** A row of [df]: the nine columns and the derived [revenue]. *)
Record ProductRow : Type := mkProductRow {
  id : Z;
  product : string;
  category : string;
  units : Z;
  price : float;
  rating : float;
  in_stock : bool;
  added_on : date;
  url : string;
  revenue : float
}.

(** A row of the grid, [df[["id", "product", "units", "price", "in_stock"]]],
    as [st.data_editor] returns it: neither editable column is required, so
    either cell may have been emptied and hold no value. *)
Record EditorRow : Type := mkEditorRow {
  e_id : Z;
  e_product : string;
  e_units : option Z;
  e_price : float;
  e_in_stock : option bool
}.

(** A row of [df.drop(columns=["units", "in_stock"])]. *)
Record BaseRow : Type := mkBaseRow {
  b_id : Z;
  b_product : string;
  b_category : string;
  b_price : float;
  b_rating : float;
  b_added_on : date;
  b_url : string;
  b_revenue : float
}.

(** A row of [edited[["id", "units", "in_stock"]]]. *)
Record EditedCols : Type := mkEditedCols {
  c_id : Z;
  c_units : option Z;
  c_in_stock : option bool
}.

(** A row of [merged]; a left row with no match gets missing values in the
    columns of the right frame, and a matched one the cells of the grid,
    which are missing where the grid's were emptied. *)
Record MergedRow : Type := mkMergedRow {
  m_id : Z;
  m_product : string;
  m_category : string;
  m_price : float;
  m_rating : float;
  m_added_on : date;
  m_url : string;
  m_revenue : float;
  m_units : option Z;
  m_in_stock : option bool
}.

(** *** The sample dataset, lines 13-52 *)

Definition products : list (string * string) :=
  [ ("Engine Oil", "AutoCare");
    ("Air Filter", "AutoCare");
    ("Spark Plug", "AutoCare");
    ("Brake Pads", "AutoCare");
    ("Coolant", "AutoCare");
    ("Wiper Blade", "AutoCare");
    ("GPS Tracker", "Electronics");
    ("Phone Mount", "Electronics");
    ("Dash Cam", "Electronics");
    ("Tyre Shine", "CarCare") ].

Definition ratings : list float :=
  [3.2; 3.8; 4.0; 4.3; 4.6; 4.8; 5.0]%float.

Definition stock_flags : list bool := [true; true; true; false].

Definition with_revenue (t : Tuple) : ProductRow :=
  {| id := t_id t; product := t_product t; category := t_category t;
     units := t_units t; price := t_price t; rating := t_rating t;
     in_stock := t_in_stock t; added_on := t_added_on t; url := t_url t;
     revenue := PrimFloat.mul (float_of_int (t_units t)) (t_price t) |}.

Section Generator.

(** NumPy is not part of the repository.  [G] is the state of the bit
    generator, [seed_sequence] the state [SeedSequence] derives from an
    integer, and [integers] and [choice_index] one draw each: the value of
    [rng.integers(low, high)], and the position [rng.choice] picks in an array
    of the given length, with the state the draw leaves. *)
Variable G : Type.
Variable seed_sequence : Z → G.
Variable integers : Z → Z → G → Z * G.
Variable choice_index : nat → G → nat * G.

(** [np.random.default_rng(seed)]: seeded from [seed] when one is given, and
    from fresh entropy of the operating system otherwise. *)
Definition default_rng (seed : option Z) (os_entropy : Z) : G :=
  seed_sequence (default os_entropy seed).

(** [rng.choice(a)]; [dflt] only makes the function total, NumPy picks a
    position inside the array. *)
Definition choice {A : Type} (a : list A) (dflt : A) (g : G) : A * G :=
  let '(k, g') := choice_index (length a) g in (nth k a dflt, g').

(** One pass of the loop body, lines 30-36. *)
Definition draw_row (start : date) (i : Z) (name cat : string) (g : G)
  : Tuple * G :=
  let '(units, g) := integers 50 400 g in
  let '(price, g) := integers 150 3500 g in
  let '(rating, g) := choice ratings 0%float g in
  let '(in_stock, g) := choice stock_flags false g in
  let '(days, g) := integers 0 120 g in
  ({| t_id := i; t_product := name; t_category := cat;
      t_units := units; t_price := float_of_int price; t_rating := rating;
      t_in_stock := in_stock; t_added_on := add_days start days;
      t_url := "https://example.com/product/" +:+ pretty i |}, g).

(** The loop over [enumerate(products, start=i)]. *)
Fixpoint draw_rows (start : date) (i : Z) (ps : list (string * string)) (g : G)
  : list Tuple * G :=
  match ps with
  | [] => ([], g)
  | (name, cat) :: ps' =>
      let '(row, g) := draw_row start i name cat g in
      let '(rows, g) := draw_rows start (i + 1) ps' g in
      (row :: rows, g)
  end.

(** [df] after line 52, for an execution on the day [today] with the
    operating system's entropy [os_entropy]. *)
Definition dataset (today : date) (os_entropy : Z) : list ProductRow :=
  let rng := default_rng (Some 42) os_entropy in
  let start := add_days today (-120) in
  with_revenue <$> (draw_rows start 1 products rng).1.

End Generator.

(** A row of [df] with its date moved by [days]. *)
Definition move_added_on (days : Z) (r : ProductRow) : ProductRow :=
  {| id := id r; product := product r; category := category r;
     units := units r; price := price r; rating := rating r;
     in_stock := in_stock r; added_on := add_days (added_on r) days;
     url := url r; revenue := revenue r |}.

(** *** The editable grid, lines 153-174 *)

Definition editor_view (df : list ProductRow) : list EditorRow :=
  (λ r, {| e_id := id r; e_product := product r; e_units := Some (units r);
           e_price := price r; e_in_stock := Some (in_stock r) |}) <$> df.

(** An edit the grid accepts: the columns [id], [product] and [price] are
    disabled and rows can be neither added nor deleted, so an edit is a new
    content for the [units] or the [in_stock] cell of a row.  Neither column
    has [required=True]: the new content may be a value or, when the user
    empties the cell, none. *)
Inductive cell_edit : Type :=
| EditUnits (row : nat) (value : option Z)
| EditInStock (row : nat) (value : option bool).

Definition set_units (v : option Z) (r : EditorRow) : EditorRow :=
  {| e_id := e_id r; e_product := e_product r; e_units := v;
     e_price := e_price r; e_in_stock := e_in_stock r |}.

Definition set_in_stock (b : option bool) (r : EditorRow) : EditorRow :=
  {| e_id := e_id r; e_product := e_product r; e_units := e_units r;
     e_price := e_price r; e_in_stock := b |}.

(** One edit applied to the grid.  The [units] column has [min_value=0]: the
    grid refuses a negative count and the cell keeps its content; emptying
    the cell is accepted. *)
Definition apply_edit (view : list EditorRow) (e : cell_edit) : list EditorRow :=
  match e with
  | EditUnits i (Some v) =>
      if 0 <=? v then alter (set_units (Some v)) i view else view
  | EditUnits i None => alter (set_units None) i view
  | EditInStock i b => alter (set_in_stock b) i view
  end.

(** [st.data_editor(view, ...)]: the view with the user's edits so far. *)
Definition data_editor (view : list EditorRow) (edits : list cell_edit)
  : list EditorRow :=
  fold_left apply_edit edits view.

Definition drop_editable (r : ProductRow) : BaseRow :=
  {| b_id := id r; b_product := product r; b_category := category r;
     b_price := price r; b_rating := rating r; b_added_on := added_on r;
     b_url := url r; b_revenue := revenue r |}.

Definition edited_cols (r : EditorRow) : EditedCols :=
  {| c_id := e_id r; c_units := e_units r; c_in_stock := e_in_stock r |}.

Definition joined (l : BaseRow) (r : option EditedCols) : MergedRow :=
  {| m_id := b_id l; m_product := b_product l; m_category := b_category l;
     m_price := b_price l; m_rating := b_rating l; m_added_on := b_added_on l;
     m_url := b_url l; m_revenue := b_revenue l;
     m_units := r ≫= c_units; m_in_stock := r ≫= c_in_stock |}.

(** [left.merge(right, on="id", how="left")]: the rows of [left] in order,
    each once per row of [right] with its [id], or once with missing values
    when [right] has none. *)
Definition merge_left (left : list BaseRow) (right : list EditedCols)
  : list MergedRow :=
  left ≫= (λ l,
    match filter (λ r, c_id r = b_id l) right with
    | [] => [joined l None]
    | matches => (λ r, joined l (Some r)) <$> matches
    end).

(** The float64 product of a count and a price; a missing count is NaN, and
    so is its product. *)
Definition times_price (u : option Z) (p : float) : float :=
  match u with
  | Some u => PrimFloat.mul (float_of_int u) p
  | None => PrimFloat.nan
  end.

(** [merged["units"] * merged["price"]] for one row. *)
Definition units_times_price (m : MergedRow) : float :=
  times_price (m_units m) (m_price m).

Definition set_revenue (m : MergedRow) : MergedRow :=
  {| m_id := m_id m; m_product := m_product m; m_category := m_category m;
     m_price := m_price m; m_rating := m_rating m; m_added_on := m_added_on m;
     m_url := m_url m; m_revenue := units_times_price m;
     m_units := m_units m; m_in_stock := m_in_stock m |}.

(** Lines 171-174. *)
Definition recompute (df : list ProductRow) (edited : list EditorRow)
  : list MergedRow :=
  set_revenue <$> merge_left (drop_editable <$> df) (edited_cols <$> edited).

(** The disabled columns of a row of the grid. *)
Definition frozen (r : EditorRow) : Z * string * float :=
  (e_id r, e_product r, e_price r).

(** The row of [merged] for a row of [df] and its row of the grid. *)
Definition merged_row (r : ProductRow) (e : EditorRow) : MergedRow :=
  {| m_id := id r; m_product := product r; m_category := category r;
     m_price := price r; m_rating := rating r; m_added_on := added_on r;
     m_url := url r;
     m_revenue := times_price (e_units e) (price r);
     m_units := e_units e; m_in_stock := e_in_stock e |}.

(** The columns of [merged] that come from the left frame untouched. *)
Definition kept_columns (m : MergedRow)
  : Z * string * string * float * float * date * string :=
  (m_id m, m_product m, m_category m, m_price m, m_rating m, m_added_on m,
   m_url m).

(** The same columns of [df]. *)
Definition base_columns (r : ProductRow)
  : Z * string * string * float * float * date * string :=
  (id r, product r, category r, price r, rating r, added_on r, url r).

(** A row of [df] as a row of [merged], nothing edited. *)
Definition as_merged (r : ProductRow) : MergedRow :=
  {| m_id := id r; m_product := product r; m_category := category r;
     m_price := price r; m_rating := rating r; m_added_on := added_on r;
     m_url := url r; m_revenue := revenue r;
     m_units := Some (units r); m_in_stock := Some (in_stock r) |}.

(** The columns of a merged row that the left frame gave it. *)
Definition left_part (m : MergedRow) : BaseRow :=
  {| b_id := m_id m; b_product := m_product m; b_category := m_category m;
     b_price := m_price m; b_rating := m_rating m; b_added_on := m_added_on m;
     b_url := m_url m; b_revenue := m_revenue m |}.

(** The rows of the right frame with the key of [l]. *)
Definition matches (right : list EditedCols) (l : BaseRow) : list EditedCols :=
  filter (λ r, c_id r = b_id l) right.

(** *** The style of the top revenue, lines 201-203 *)

(** [np.maximum] on two floats that are not NaN. *)
Definition fmax (a b : float) : float := if PrimFloat.ltb a b then b else a.

(** [s.max()] with the default [skipna=True]: the largest value that is not
    NaN, and NaN when there is none. *)
Definition Series_max (s : list float) : float :=
  match filter (λ x, PrimFloat.is_nan x = false) s with
  | [] => PrimFloat.nan
  | x :: xs => fold_left fmax xs x
  end.

Definition top_style : string := "background-color: #ffe599".

Definition highlight_top_revenue (s : list float) : list string :=
  let is_max := (λ v, PrimFloat.eqb v (Series_max s)) <$> s in
  (λ v : bool, if v then top_style else "") <$> is_max.

(** *** The two tables of section 1, lines 67 and 72 *)

(** [df.head(n)]. *)
Definition head (n : nat) (df : list ProductRow) : list ProductRow :=
  take n df.

(** [df.loc[:label]] on the default index 0, 1, 2, ...: a slice by label
    includes its end. *)
Definition loc_upto (label : nat) (df : list ProductRow) : list ProductRow :=
  take (S label) df.

(** [df.loc[:4, ["product", "category", "units", "price"]]]. *)
Definition static_table (df : list ProductRow)
  : list (string * string * Z * float) :=
  (λ r, (product r, category r, units r, price r)) <$> loc_upto 4 df.

(** *** The share of rows in stock, line 126 *)

Definition count_true (s : list bool) : nat :=
  length (filter (λ b : bool, b = true) s).

(** [s.mean()] of a boolean series: the count of [True] over the length,
    both as floats. *)
Definition Series_mean_bool (s : list bool) : float :=
  PrimFloat.div (float_of_int (Z.of_nat (count_true s)))
                (float_of_int (Z.of_nat (length s))).

Definition in_stock_pct (df : list ProductRow) : float :=
  PrimFloat.mul (Series_mean_bool (in_stock <$> df)) 100%float.

(** *** The column selector, lines 233-238 *)

Inductive cell : Type :=
| CInt (z : Z)
| CStr (s : string)
| CFloat (f : float)
| CBool (b : bool)
| CDate (d : date).

(** The columns of [df] after line 52, each with the cell it holds in a row. *)
Definition df_cells : list (string * (ProductRow → cell)) :=
  [ ("id", λ r, CInt (id r));
    ("product", λ r, CStr (product r));
    ("category", λ r, CStr (category r));
    ("units", λ r, CInt (units r));
    ("price", λ r, CFloat (price r));
    ("rating", λ r, CFloat (rating r));
    ("in_stock", λ r, CBool (in_stock r));
    ("added_on", λ r, CDate (added_on r));
    ("url", λ r, CStr (url r));
    ("revenue", λ r, CFloat (revenue r)) ].

(** [list(df.columns)]. *)
Definition df_columns : list string := df_cells.*1.

Fixpoint column (c : string) (cells : list (string * (ProductRow → cell)))
  : option (ProductRow → cell) :=
  match cells with
  | [] => None
  | (c', get) :: cells' => if bool_decide (c' = c) then Some get else column c cells'
  end.

(** [df[cols]] for a list of labels: the frame of those columns in that
    order, or a [KeyError] for a label that is no column. *)
Inductive selection : Type :=
| Selected (cols : list string) (rows : list (list cell))
| KeyError (missing : string).

Fixpoint getters (cols : list string)
  : (list (ProductRow → cell)) + string :=
  match cols with
  | [] => inl []
  | c :: cols' =>
      match column c df_cells with
      | None => inr c
      | Some get =>
          match getters cols' with
          | inl gets => inl (get :: gets)
          | inr missing => inr missing
          end
      end
  end.

Definition getitem_columns (cols : list string) (df : list ProductRow)
  : selection :=
  match getters cols with
  | inl gets => Selected cols ((λ r, (λ get, get r) <$> gets) <$> df)
  | inr missing => KeyError missing
  end.

(** [st.multiselect(label, options, default=default)]: the options the user
    picked, in the order picked, or the default while the widget is left
    alone. *)
Definition multiselect (options default : list string)
    (picked : option (list nat)) : list string :=
  match picked with
  | None => default
  | Some ks => omap (λ k, options !! k) ks
  end.

Definition default_columns : list string :=
  ["product"; "category"; "units"; "price"; "revenue"].

(** Lines 233-238: the selected columns of [df]. *)
Definition selected_view (picked : option (list nat)) (df : list ProductRow)
  : selection :=
  getitem_columns (multiselect df_columns default_columns picked) df.

(** *** Tables and a generator for the examples *)

(** Two rows in the shape of [df]; the first is the row of the scenario, 100
    units at a price of 20. *)
Definition two_rows : list ProductRow :=
  [ {| id := 1; product := "Engine Oil"; category := "AutoCare";
       units := 100; price := 20%float; rating := 4.3%float; in_stock := true;
       added_on := ymd 2024 1 10; url := "https://example.com/product/1";
       revenue := 2000%float |};
    {| id := 2; product := "Air Filter"; category := "AutoCare";
       units := 7; price := 151%float; rating := 3.8%float; in_stock := false;
       added_on := ymd 2024 2 29; url := "https://example.com/product/2";
       revenue := 1057%float |} ].

(** A small linear congruential generator, in place of PCG64, to run the
    dataset on. *)
Module Lcg.

Definition next (g : Z) : Z :=
  (g * 6364136223846793005 + 1442695040888963407) mod 2 ^ 64.

Definition seed_sequence (seed : Z) : Z := next (seed mod 2 ^ 64).

Definition integers (low high : Z) (g : Z) : Z * Z :=
  (low + (g / 2 ^ 33) mod (high - low), next g).

Definition choice_index (n : nat) (g : Z) : nat * Z :=
  (Z.to_nat ((g / 2 ^ 33) mod Z.of_nat n), next g).

Definition dataset (today : date) (os_entropy : Z) : list ProductRow :=
  Showcase.dataset Z seed_sequence integers choice_index today os_entropy.

End Lcg.

(** *** The rows of the dataset *)

Section GeneratorFacts.

Variable G : Type.
Variable seed_sequence : Z → G.
Variable integers : Z → Z → G → Z * G.
Variable choice_index : nat → G → nat * G.

Lemma draw_row_id (start : date) (i : Z) (name cat : string) (g : G) :
  t_id (draw_row G integers choice_index start i name cat g).1 = i.
Proof. unfold draw_row, choice. by repeat case_match. Qed.

Lemma draw_rows_ids (start : date) (ps : list (string * string)) :
  ∀ (i : Z) (g : G),
    t_id <$> (draw_rows G integers choice_index start i ps g).1
    = seqZ i (Z.of_nat (length ps)).
Proof.
  induction ps as [|[name cat] ps IH]; intros i g; [done|].
  cbn [draw_rows length].
  pose proof (draw_row_id start i name cat g) as Hid.
  destruct (draw_row _ _ _ _ _ _ _ g) as [row g1].
  specialize (IH (i + 1) g1).
  destruct (draw_rows _ _ _ _ _ _ g1) as [rows g2].
  cbn [fst] in *. rewrite fmap_cons, Hid, IH, (seqZ_cons i) by lia.
  do 2 f_equal; lia.
Qed.

Lemma draw_row_names (start : date) (i : Z) (name cat : string) (g : G) :
  let t := (draw_row G integers choice_index start i name cat g).1 in
  (t_product t, t_category t) = (name, cat).
Proof. unfold draw_row, choice. by repeat case_match. Qed.

Lemma draw_rows_names (start : date) (ps : list (string * string)) :
  ∀ (i : Z) (g : G),
    (λ t, (t_product t, t_category t))
      <$> (draw_rows G integers choice_index start i ps g).1
    = ps.
Proof.
  induction ps as [|[name cat] ps IH]; intros i g; [done|].
  cbn [draw_rows].
  pose proof (draw_row_names start i name cat g) as Hnames.
  destruct (draw_row _ _ _ _ _ _ _ g) as [row g1].
  specialize (IH (i + 1) g1).
  destruct (draw_rows _ _ _ _ _ _ g1) as [rows g2].
  cbn [fst] in *. by rewrite fmap_cons, Hnames, IH.
Qed.

Lemma dataset_ids (today : date) (os_entropy : Z) :
  id <$> dataset G seed_sequence integers choice_index today os_entropy
  = seqZ 1 10.
Proof.
  unfold dataset. cbv zeta. rewrite <- list_fmap_compose.
  change (id ∘ with_revenue) with t_id. by rewrite draw_rows_ids.
Qed.

Lemma dataset_ids_NoDup (today : date) (os_entropy : Z) :
  NoDup (id <$> dataset G seed_sequence integers choice_index today os_entropy).
Proof. rewrite dataset_ids. apply NoDup_seqZ. Qed.

(** The state of the generator after the five draws of one row. *)
Definition after_row (g : G) : G :=
  (integers 0 120
     (choice_index 4
        (choice_index 7
           (integers 150 3500 (integers 50 400 g).2).2).2).2).2.

Lemma draw_row_eq (start : date) (i : Z) (name cat : string) (g : G) :
  draw_row G integers choice_index start i name cat g
  = let u := integers 50 400 g in
    let p := integers 150 3500 u.2 in
    let r := choice_index 7 p.2 in
    let s := choice_index 4 r.2 in
    let d := integers 0 120 s.2 in
    ({| t_id := i; t_product := name; t_category := cat;
        t_units := u.1; t_price := float_of_int p.1;
        t_rating := nth r.1 ratings 0%float;
        t_in_stock := nth s.1 stock_flags false;
        t_added_on := start + d.1;
        t_url := "https://example.com/product/" +:+ pretty i |},
     after_row g).
Proof.
  unfold draw_row, choice, after_row, add_days.
  change (length ratings) with 7%nat. change (length stock_flags) with 4%nat.
  cbv zeta.
  destruct (integers 50 400 g) as [u g1]. cbn [fst snd].
  destruct (integers 150 3500 g1) as [p g2]. cbn [fst snd].
  destruct (choice_index 7 g2) as [r g3]. cbn [fst snd].
  destruct (choice_index 4 g3) as [st g4]. cbn [fst snd].
  by destruct (integers 0 120 g4) as [d g5].
Qed.

Lemma draw_rows_lookup (start : date) (ps : list (string * string)) :
  ∀ (i : Z) (g : G) (k : nat) (name cat : string),
    ps !! k = Some (name, cat) →
    (draw_rows G integers choice_index start i ps g).1 !! k
    = Some (draw_row G integers choice_index start (i + Z.of_nat k) name cat
              (Nat.iter k after_row g)).1.
Proof.
  induction ps as [|[name0 cat0] ps IH]; intros i g k name cat Hk; [done|].
  cbn [draw_rows].
  pose proof (draw_row_eq start i name0 cat0 g) as Hrow. cbv zeta in Hrow.
  destruct (draw_row _ _ _ _ _ _ _ g) as [row g1].
  injection Hrow as Hrow Hg1.
  specialize (IH (i + 1) g1).
  destruct (draw_rows _ _ _ _ _ _ g1) as [rows g2]. cbn [fst] in *.
  destruct k as [|k].
  - injection Hk as -> ->. cbn [lookup list_lookup Nat.iter].
    rewrite Z.add_0_r, draw_row_eq. cbv zeta. cbn [fst]. by rewrite Hrow.
  - change ((row :: rows) !! S k) with (rows !! k).
    change (((name0, cat0) :: ps) !! S k) with (ps !! k) in Hk.
    rewrite (IH k name cat Hk).
    rewrite Hg1, Nat.iter_succ_r. do 3 f_equal. lia.
Qed.

Lemma draw_rows_move (start start' : date) (ps : list (string * string)) :
  ∀ (i : Z) (g : G),
    with_revenue <$> (draw_rows G integers choice_index start' i ps g).1
    = move_added_on (start' - start)
        <$> (with_revenue <$> (draw_rows G integers choice_index start i ps g).1)
    ∧ (draw_rows G integers choice_index start' i ps g).2
      = (draw_rows G integers choice_index start i ps g).2.
Proof.
  induction ps as [|[name cat] ps IH]; intros i g; [done|].
  cbn [draw_rows]. rewrite !draw_row_eq. cbv zeta.
  destruct (IH (i + 1) (after_row g)) as [Hrows Hstate].
  destruct (draw_rows _ _ _ start' _ _ (after_row g)) as [rows' g'].
  destruct (draw_rows _ _ _ start _ _ (after_row g)) as [rows g2].
  cbn [fst snd] in *. rewrite !fmap_cons, Hrows. split; [|done].
  f_equal. unfold with_revenue, move_added_on, add_days. cbn. f_equal. lia.
Qed.

Lemma length_draw_rows (start : date) (ps : list (string * string)) :
  ∀ (i : Z) (g : G),
    length (draw_rows G integers choice_index start i ps g).1 = length ps.
Proof.
  intros i g. rewrite <- (length_fmap t_id), draw_rows_ids, length_seqZ. lia.
Qed.

Lemma dataset_revenue (today : date) (os_entropy : Z) :
  Forall (λ r, revenue r = PrimFloat.mul (float_of_int (units r)) (price r))
         (dataset G seed_sequence integers choice_index today os_entropy).
Proof. unfold dataset. cbv zeta. apply Forall_fmap, Forall_true. done. Qed.

End GeneratorFacts.

(** *** The grid keeps the rows and the disabled columns *)

Lemma frozen_apply_edit (view : list EditorRow) (e : cell_edit) :
  frozen <$> apply_edit view e = frozen <$> view.
Proof.
  destruct e as [i [v|]|i b]; cbn [apply_edit];
    [destruct (0 <=? v); [|done]| |];
    (rewrite (list_fmap_alter frozen _ (λ x, x)) by (by apply Forall_true);
     by rewrite list_alter_id).
Qed.

Lemma frozen_data_editor (edits : list cell_edit) :
  ∀ view : list EditorRow, frozen <$> data_editor view edits = frozen <$> view.
Proof.
  induction edits as [|e edits IH]; intros view; [done|].
  cbn [data_editor fold_left]. fold (data_editor (apply_edit view e) edits).
  by rewrite IH, frozen_apply_edit.
Qed.

Lemma length_data_editor (edits : list cell_edit) (view : list EditorRow) :
  length (data_editor view edits) = length view.
Proof.
  rewrite <- (length_fmap frozen), frozen_data_editor. apply length_fmap.
Qed.

Lemma data_editor_ids (df : list ProductRow) (edits : list cell_edit) :
  c_id <$> (edited_cols <$> data_editor (editor_view df) edits) = id <$> df.
Proof.
  rewrite <- list_fmap_compose.
  change (c_id ∘ edited_cols) with (fst ∘ fst ∘ frozen).
  rewrite (list_fmap_compose frozen), frozen_data_editor.
  unfold editor_view. rewrite <- !list_fmap_compose. done.
Qed.

Lemma data_editor_snoc (view : list EditorRow) (edits : list cell_edit) (e : cell_edit) :
  data_editor view (edits ++ [e]) = apply_edit (data_editor view edits) e.
Proof. unfold data_editor. by rewrite fold_left_app. Qed.

(** *** A left join on a unique key pairs the rows up *)

Lemma filter_key_none (k : Z) (right : list EditedCols) :
  k ∉ c_id <$> right → filter (λ r, c_id r = k) right = [].
Proof.
  induction right as [|x right IH]; intros Hk; [done|].
  rewrite fmap_cons, not_elem_of_cons in Hk. destruct Hk as [Hx Hk].
  rewrite filter_cons_False by done. by apply IH.
Qed.

Lemma filter_key_unique (right : list EditedCols) (r : EditedCols) :
  NoDup (c_id <$> right) → r ∈ right →
  filter (λ x, c_id x = c_id r) right = [r].
Proof.
  induction right as [|x right IH]; intros Hnd Hr; [by apply elem_of_nil in Hr|].
  rewrite fmap_cons, NoDup_cons in Hnd. destruct Hnd as [Hx Hnd].
  apply elem_of_cons in Hr as [->|Hr].
  - rewrite filter_cons_True by done. by rewrite filter_key_none.
  - rewrite filter_cons_False; [by apply IH|].
    intros Heq. apply Hx. rewrite Heq. by apply list_elem_of_fmap_2.
Qed.

Lemma merge_left_aligned (right : list EditedCols) :
  NoDup (c_id <$> right) →
  ∀ (left' : list BaseRow) (right' : list EditedCols),
    c_id <$> right' = b_id <$> left' →
    (∀ r, r ∈ right' → r ∈ right) →
    merge_left left' right = zip_with (λ l r, joined l (Some r)) left' right'.
Proof.
  intros Hnd. induction left' as [|l left' IH]; intros [|r right'] Hkeys Hsub;
    try done.
  rewrite !fmap_cons in Hkeys. injection Hkeys as Hkey Hkeys.
  unfold merge_left. rewrite bind_cons. fold (merge_left left' right).
  rewrite <- Hkey, (filter_key_unique right r Hnd) by (apply Hsub; left).
  cbn [fmap list_fmap app zip_with]. f_equal.
  apply IH; [done|]. intros r' Hr'. apply Hsub. by right.
Qed.

Lemma merge_left_unique (left : list BaseRow) (right : list EditedCols) :
  NoDup (b_id <$> left) → c_id <$> right = b_id <$> left →
  merge_left left right = zip_with (λ l r, joined l (Some r)) left right.
Proof.
  intros Hnd Hkeys. apply merge_left_aligned; [by rewrite Hkeys|done|done].
Qed.

Lemma recompute_aligned (df : list ProductRow) (edited : list EditorRow) :
  NoDup (id <$> df) → e_id <$> edited = id <$> df →
  recompute df edited = zip_with merged_row df edited.
Proof.
  intros Hnd Hkeys. unfold recompute. rewrite merge_left_unique.
  - rewrite zip_with_fmap_l, zip_with_fmap_r.
    apply list_eq. intros k.
    rewrite list_lookup_fmap, !lookup_zip_with.
    destruct (df !! k) as [r|]; [|done]. cbn.
    by destruct (edited !! k) as [e|].
  - by rewrite <- list_fmap_compose.
  - by rewrite <- !list_fmap_compose.
Qed.

Lemma recompute_data_editor (df : list ProductRow) (edits : list cell_edit) :
  NoDup (id <$> df) →
  recompute df (data_editor (editor_view df) edits)
  = zip_with merged_row df (data_editor (editor_view df) edits).
Proof.
  intros Hnd. apply recompute_aligned; [done|].
  rewrite <- (data_editor_ids df edits). by rewrite <- list_fmap_compose.
Qed.

Lemma fmap_zip_with_proj_l {A B C D : Type}
    (f : A → B → C) (g : C → D) (h : A → D) (l : list A) (k : list B) :
  (∀ x y, g (f x y) = h x) → length l = length k →
  g <$> zip_with f l k = h <$> l.
Proof.
  intros Hg. revert k. induction l as [|x l IH]; intros [|y k] Hlen; try done.
  cbn [zip_with]. rewrite !fmap_cons, Hg. f_equal. apply IH.
  by injection Hlen.
Qed.

Lemma fmap_zip_with_proj_r {A B C D : Type}
    (f : A → B → C) (g : C → D) (h : B → D) (l : list A) (k : list B) :
  (∀ x y, g (f x y) = h y) → length l = length k →
  g <$> zip_with f l k = h <$> k.
Proof.
  intros Hg. revert k. induction l as [|x l IH]; intros [|y k] Hlen; try done.
  cbn [zip_with]. rewrite !fmap_cons, Hg. f_equal. apply IH.
  by injection Hlen.
Qed.

Lemma length_grid (df : list ProductRow) (edits : list cell_edit) :
  length df = length (data_editor (editor_view df) edits).
Proof. rewrite length_data_editor. unfold editor_view. by rewrite length_fmap. Qed.

(** *** The claims about the showcase *)

(** C5. Over a base table with unique identifiers, once the count of row [i]
    is edited to [u'], the recomputed table has at [i] the count [u'], the
    row's own price and the revenue [u' * price]; every other row is as it
    was before this edit; and every row's revenue is its count times its
    price: the float64 product of the data frame, which is NaN for a row
    whose count was emptied by an earlier edit. *)
Theorem C5_units_edit_recomputes_revenue
    (df : list ProductRow) (edits : list cell_edit)
    (i : nat) (row : ProductRow) (u' : Z) :
  NoDup (id <$> df) → df !! i = Some row → 0 ≤ u' →
  let grid := editor_view df in
  let before := recompute df (data_editor grid edits) in
  let after :=
    recompute df (data_editor grid (edits ++ [EditUnits i (Some u')])) in
  (∃ m, after !! i = Some m
        ∧ m_id m = id row
        ∧ m_units m = Some u'
        ∧ m_price m = price row
        ∧ m_revenue m = PrimFloat.mul (float_of_int u') (price row))
  ∧ (∀ j : nat, j ≠ i → after !! j = before !! j)
  ∧ length after = length df
  ∧ Forall (λ m, match m_units m with
                 | Some u =>
                     m_revenue m = PrimFloat.mul (float_of_int u) (m_price m)
                 | None => m_revenue m = PrimFloat.nan
                 end)
           after.
Proof.
  cbv zeta. intros Hnd Hrow Hu'.
  rewrite !recompute_data_editor by done.
  rewrite data_editor_snoc. cbn [apply_edit].
  destruct (0 <=? u') eqn:Hle; [|lia].
  set (grid := data_editor (editor_view df) edits).
  assert (length df = length grid) as Hlen by apply length_grid.
  split_and!.
  - destruct (lookup_lt_is_Some_2 grid i) as [e He].
    { rewrite <- Hlen. by eapply lookup_lt_Some. }
    exists (merged_row row (set_units (Some u') e)). split_and!; try done.
    rewrite lookup_zip_with, Hrow, list_lookup_alter_eq, He. done.
  - intros j Hj. rewrite !lookup_zip_with.
    by rewrite list_lookup_alter_ne.
  - rewrite length_zip_with_l_eq; [done|]. by rewrite length_alter.
  - apply Forall_lookup_2. intros k m. rewrite lookup_zip_with.
    destruct (df !! k) as [r|]; [|done]. cbn.
    destruct (alter (set_units (Some u')) i grid !! k) as [e|]; [|done]. cbn.
    intros [= <-]. cbn. by destruct (e_units e).
Qed.

(** C8. Two executions on the same day build the same table, whatever the
    entropy of the operating system: the generator is seeded with 42 on every
    execution, and row [k] is made of the five draws that follow the [5 k]
    draws of the rows before it, in the order of the source: the count in
    50..399, the price in 150..3499 as a float, the position of the rating
    among seven, that of the in-stock flag among four, and the days after
    the start; the identifier is [k + 1], the names are the tenth of
    [products], and the revenue is the count times the price.  On another
    day only the dates move, by the days between the two. *)
Theorem C8_dataset_deterministic
    (G : Type) (seed_sequence : Z → G) (integers : Z → Z → G → Z * G)
    (choice_index : nat → G → nat * G)
    (today today' : date) (os_entropy1 os_entropy2 : Z) :
  let run1 := dataset G seed_sequence integers choice_index today os_entropy1 in
  let run2 := dataset G seed_sequence integers choice_index today os_entropy2 in
  let other_day :=
    dataset G seed_sequence integers choice_index today' os_entropy2 in
  let five_draws (g : G) : G :=
    (integers 0 120
       (choice_index 4%nat
          (choice_index 7%nat
             (integers 150 3500 (integers 50 400 g).2).2).2).2).2 in
  run1 = run2
  ∧ length run1 = 10%nat
  ∧ id <$> run1 = [1; 2; 3; 4; 5; 6; 7; 8; 9; 10]
  ∧ (λ r, (product r, category r)) <$> run1 = products
  ∧ (∀ (k : nat) (name cat : string),
       products !! k = Some (name, cat) →
       let g := Nat.iter k five_draws (seed_sequence 42) in
       let u := integers 50 400 g in
       let p := integers 150 3500 u.2 in
       let r := choice_index 7%nat p.2 in
       let s := choice_index 4%nat r.2 in
       let d := integers 0 120 s.2 in
       run1 !! k
       = Some {| id := Z.of_nat k + 1;
                 product := name;
                 category := cat;
                 units := u.1;
                 price := float_of_int p.1;
                 rating := nth r.1 [3.2; 3.8; 4.0; 4.3; 4.6; 4.8; 5.0]%float
                               0%float;
                 in_stock := nth s.1 [true; true; true; false] false;
                 added_on := today - 120 + d.1;
                 url := "https://example.com/product/"
                        +:+ pretty (Z.of_nat k + 1);
                 revenue := PrimFloat.mul (float_of_int u.1)
                                          (float_of_int p.1) |})
  ∧ other_day = move_added_on (today' - today) <$> run1.
Proof.
  cbv zeta. split_and!.
  - reflexivity.
  - unfold dataset. cbv zeta. by rewrite length_fmap, length_draw_rows.
  - by rewrite dataset_ids.
  - unfold dataset. cbv zeta. rewrite <- list_fmap_compose.
    apply draw_rows_names.
  - intros k name cat Hk. unfold dataset, default_rng. cbv zeta.
    cbn [default]. rewrite list_lookup_fmap.
    rewrite (draw_rows_lookup G integers choice_index _ _ _ _ _ _ _ Hk).
    replace (1 + Z.of_nat k) with (Z.of_nat k + 1) by lia.
    rewrite draw_row_eq. reflexivity.
  - destruct (draw_rows_move G integers choice_index (add_days today (-120))
                (add_days today' (-120)) products 1 (seed_sequence 42))
      as [Hmove _].
    change (with_revenue
              <$> (draw_rows G integers choice_index (add_days today' (-120)) 1
                     products (seed_sequence 42)).1
            = move_added_on (today' - today)
                <$> (with_revenue
                       <$> (draw_rows G integers choice_index
                              (add_days today (-120)) 1 products
                              (seed_sequence 42)).1)).
    rewrite Hmove. f_equal. f_equal. unfold add_days. lia.
Qed.

(** C9. On the dataset, whatever was edited or emptied in the grid, the
    recomputed table has one row per row of the base table, in the same
    order; its id, product, category, price, rating, added_on and url columns
    are those of the base table; and its units and in_stock columns are
    those of the grid, cell for cell and missing where the grid's cell is
    empty, matched by identifier. *)
Theorem C9_recompute_is_left_join
    (G : Type) (seed_sequence : Z → G) (integers : Z → Z → G → Z * G)
    (choice_index : nat → G → nat * G)
    (today : date) (os_entropy : Z) (edits : list cell_edit) :
  let df := dataset G seed_sequence integers choice_index today os_entropy in
  let edited := data_editor (editor_view df) edits in
  let merged := recompute df edited in
  length merged = length df
  ∧ length df = 10%nat
  ∧ kept_columns <$> merged = base_columns <$> df
  ∧ e_id <$> edited = id <$> df
  ∧ (λ m, (m_units m, m_in_stock m)) <$> merged
    = (λ e, (e_units e, e_in_stock e)) <$> edited
  ∧ (∀ (k : nat) (r : ProductRow),
       df !! k = Some r →
       ∃ e, edited !! k = Some e ∧ e_id e = id r
            ∧ merged !! k = Some (merged_row r e)).
Proof.
  cbv zeta.
  set (df := dataset G seed_sequence integers choice_index today os_entropy).
  pose proof (dataset_ids_NoDup G seed_sequence integers choice_index
                today os_entropy) as Hnd. fold df in Hnd.
  rewrite recompute_data_editor by done.
  pose proof (length_grid df edits) as Hlen.
  pose proof (data_editor_ids df edits) as Hids.
  rewrite <- list_fmap_compose in Hids.
  change (c_id ∘ edited_cols) with e_id in Hids.
  split_and!.
  - by rewrite length_zip_with_l_eq.
  - rewrite <- (length_fmap id). unfold df. by rewrite dataset_ids.
  - by apply fmap_zip_with_proj_l.
  - done.
  - by apply fmap_zip_with_proj_r.
  - intros k r Hr.
    destruct (lookup_lt_is_Some_2 (data_editor (editor_view df) edits) k)
      as [e He].
    { rewrite <- Hlen. by eapply lookup_lt_Some. }
    exists e. split_and!; [done| |by rewrite lookup_zip_with, Hr, He].
    apply (f_equal (λ l, l !! k)) in Hids.
    rewrite !list_lookup_fmap, Hr, He in Hids. by injection Hids.
Qed.

(** *** Further properties of the grid and the join *)

Lemma zip_with_merged_row_view (df : list ProductRow) :
  zip_with merged_row df (editor_view df)
  = (λ r, merged_row r {| e_id := id r; e_product := product r;
                          e_units := Some (units r); e_price := price r;
                          e_in_stock := Some (in_stock r) |}) <$> df.
Proof.
  unfold editor_view. rewrite zip_with_fmap_r. apply zip_with_diag.
Qed.

(** X8. Nothing edited, the recomputed table is the dataset again: dropping
    the two editable columns and joining them back from the grid returns
    every row with its own count, flag and revenue. *)
Theorem X8_unedited_grid_round_trip
    (G : Type) (seed_sequence : Z → G) (integers : Z → Z → G → Z * G)
    (choice_index : nat → G → nat * G) (today : date) (os_entropy : Z) :
  let df := dataset G seed_sequence integers choice_index today os_entropy in
  recompute df (data_editor (editor_view df) []) = as_merged <$> df
  ∧ m_revenue <$> recompute df (data_editor (editor_view df) [])
    = revenue <$> df.
Proof.
  cbv zeta.
  set (df := dataset G seed_sequence integers choice_index today os_entropy).
  assert (recompute df (data_editor (editor_view df) []) = as_merged <$> df)
    as Hsame.
  { rewrite recompute_data_editor
      by apply (dataset_ids_NoDup G seed_sequence integers choice_index).
    cbn [data_editor fold_left]. rewrite zip_with_merged_row_view.
    apply Forall_fmap_ext.
    eapply Forall_impl;
      [apply (dataset_revenue G seed_sequence integers choice_index)|].
    intros r Hr. unfold merged_row, as_merged. cbn. by rewrite Hr. }
  split; [done|]. rewrite Hsame, <- list_fmap_compose. done.
Qed.

(** X9. Editing an in-stock flag changes that flag and nothing else: every
    count and every revenue of the recomputed table is as before, and so is
    every other row. *)
Theorem X9_in_stock_edit_keeps_revenue
    (df : list ProductRow) (edits : list cell_edit) (i : nat) (b : bool) :
  NoDup (id <$> df) →
  let grid := editor_view df in
  let before := recompute df (data_editor grid edits) in
  let after :=
    recompute df (data_editor grid (edits ++ [EditInStock i (Some b)])) in
  m_revenue <$> after = m_revenue <$> before
  ∧ m_units <$> after = m_units <$> before
  ∧ (∀ j : nat, j ≠ i → after !! j = before !! j)
  ∧ (∀ m, after !! i = Some m → m_in_stock m = Some b).
Proof.
  cbv zeta. intros Hnd. rewrite !recompute_data_editor by done.
  rewrite data_editor_snoc. cbn [apply_edit].
  set (grid := data_editor (editor_view df) edits).
  assert (∀ k, zip_with merged_row df (alter (set_in_stock (Some b)) i grid) !! k
               = (λ m, if decide (i = k)
                       then {| m_id := m_id m; m_product := m_product m;
                               m_category := m_category m; m_price := m_price m;
                               m_rating := m_rating m; m_added_on := m_added_on m;
                               m_url := m_url m; m_revenue := m_revenue m;
                               m_units := m_units m; m_in_stock := Some b |}
                       else m) <$> zip_with merged_row df grid !! k) as Hrow.
  { intros k. rewrite !lookup_zip_with, list_lookup_alter.
    destruct (df !! k) as [r|]; [|done]. cbn.
    destruct (decide (i = k)) as [->|Hne]; by destruct (grid !! k). }
  split_and!.
  - apply list_eq. intros k. rewrite !list_lookup_fmap, Hrow.
    destruct (zip_with merged_row df grid !! k); [|done]. cbn.
    by destruct (decide (i = k)).
  - apply list_eq. intros k. rewrite !list_lookup_fmap, Hrow.
    destruct (zip_with merged_row df grid !! k); [|done]. cbn.
    by destruct (decide (i = k)).
  - intros j Hj. rewrite Hrow.
    destruct (zip_with merged_row df grid !! j); [|done]. cbn.
    by destruct (decide (i = j)).
  - intros m. rewrite Hrow.
    destruct (zip_with merged_row df grid !! i); [|done]. cbn.
    destruct (decide (i = i)); [|done]. by intros [= <-].
Qed.

Lemma matches_nil (right : list EditedCols) (l : BaseRow) :
  matches right l = [] ↔ b_id l ∉ c_id <$> right.
Proof.
  unfold matches. induction right as [|x right IH]; [set_solver|].
  rewrite fmap_cons, not_elem_of_cons.
  destruct (decide (c_id x = b_id l)) as [Heq|Hne].
  - rewrite filter_cons_True by done. split; [done|]. intros [Hl _]. done.
  - rewrite filter_cons_False by done. rewrite IH. split; [|by intros [_ ?]].
    intros Hl. split; [done|done].
Qed.

Lemma merge_left_cons (l : BaseRow) (left : list BaseRow)
    (right : list EditedCols) :
  merge_left (l :: left) right
  = match matches right l with
    | [] => [joined l None]
    | ms => (λ r, joined l (Some r)) <$> ms
    end ++ merge_left left right.
Proof. reflexivity. Qed.

(** X10. The left join never loses a row of the left frame, whatever the
    right frame holds: each left row comes out once per match, and once with
    missing values when it has none, so the left rows are a subsequence of
    the result.  A row of the result whose identifier the right frame lacks
    has no count, and a count in the result is the count of a right row with
    that identifier; when every row of the right frame has a count, a row of
    the result lacks its count exactly when the right frame has no row with
    its identifier. *)
Theorem X10_left_join_keeps_left_rows
    (left : list BaseRow) (right : list EditedCols) :
  length (merge_left left right)
  = sum_list ((λ l, Nat.max 1 (length (matches right l))) <$> left)
  ∧ (length left ≤ length (merge_left left right))%nat
  ∧ left `sublist_of` (left_part <$> merge_left left right)
  ∧ (∀ m, m ∈ merge_left left right →
          (m_id m ∉ c_id <$> right → m_units m = None)
          ∧ (∀ u, m_units m = Some u →
                  ∃ r, r ∈ right ∧ c_id r = m_id m ∧ c_units r = Some u)
          ∧ (Forall (λ r, is_Some (c_units r)) right →
             (m_units m = None ↔ m_id m ∉ c_id <$> right))).
Proof.
  assert (length (merge_left left right)
          = sum_list ((λ l, Nat.max 1 (length (matches right l))) <$> left))
    as Hlen.
  { induction left as [|l left IH]; [done|].
    rewrite merge_left_cons, length_app, IH. cbn [fmap list_fmap sum_list].
    f_equal. destruct (matches right l) as [|r rs]; cbn; [done|].
    by rewrite length_fmap. }
  split_and!; [done| | |].
  - rewrite Hlen. clear Hlen. induction left as [|l left IH]; [done|].
    rewrite fmap_cons. cbn [length].
    change (sum_list (?x :: ?xs)) with (x + sum_list xs)%nat. lia.
  - clear Hlen. induction left as [|l left IH]; [constructor|].
    rewrite merge_left_cons, fmap_app.
    destruct (matches right l) as [|r rs].
    + cbn [fmap list_fmap app]. destruct l. by apply sublist_skip.
    + cbn [fmap list_fmap app]. destruct l. apply sublist_skip.
      by apply sublist_inserts_l.
  - clear Hlen. intros m. induction left as [|l left IH].
    { intros Hm. by apply elem_of_nil in Hm. }
    rewrite merge_left_cons, elem_of_app. intros [Hm|Hm]; [|by apply IH].
    destruct (matches right l) as [|r rs] eqn:Hms.
    + apply list_elem_of_singleton in Hm as ->. cbn.
      split_and!; [done|done|]. intros _.
      split; [intros _; by apply matches_nil|done].
    + apply list_elem_of_fmap in Hm as (r' & -> & Hr'). cbn.
      assert (r' ∈ right ∧ c_id r' = b_id l) as [Hin Hid].
      { rewrite <- Hms in Hr'. unfold matches in Hr'.
        by apply list_elem_of_filter in Hr' as [? ?]. }
      assert (b_id l ∈ c_id <$> right) as Hkey.
      { rewrite <- Hid. by apply list_elem_of_fmap_2. }
      split_and!.
      * done.
      * intros u Hu. by exists r'.
      * intros Hall. rewrite Forall_forall in Hall.
        destruct (Hall r' Hin) as [u Hu]. rewrite Hu. done.
Qed.

(** A count that is there and not negative, or no count at all. *)
Definition no_negative_units (u : option Z) : Prop :=
  ∀ v : Z, u = Some v → 0 ≤ v.

(** Whether an edit empties a units cell. *)
Definition empties_units (e : cell_edit) : Prop :=
  ∃ i : nat, e = EditUnits i None.

Lemma grid_units_preserved (P : option Z → Prop) (keep : cell_edit → Prop) :
  (∀ i v, keep (EditUnits i v) → match v with
                                   | Some z => 0 ≤ z → P (Some z)
                                   | None => P None
                                   end) →
  ∀ (edits : list cell_edit) (view : list EditorRow),
    Forall keep edits →
    Forall (λ r, P (e_units r)) view →
    Forall (λ r, P (e_units r)) (data_editor view edits).
Proof.
  intros Hkeep. induction edits as [|e edits IH]; intros view Hedits Hview;
    [done|].
  apply Forall_cons in Hedits as [He Hedits].
  cbn [data_editor fold_left]. apply IH; [done|].
  destruct e as [i [v|]|i b]; cbn [apply_edit].
  - destruct (0 <=? v) eqn:Hv; [|done].
    apply Forall_alter; [done|]. intros x _ _. cbn.
    apply (Hkeep i (Some v) He). lia.
  - apply Forall_alter; [done|]. intros x _ _. cbn. apply (Hkeep i None He).
  - apply Forall_alter; [done|]. by intros x _ Hx.
Qed.

(** X11. The grid never lets a count go negative: if no count of the base
    table is negative, then after any edits no row of the recomputed table has
    a negative count, each count being either missing, its cell emptied, or
    at least 0; and when no edit emptied a units cell, every row has a
    count. *)
Theorem X11_units_stay_non_negative
    (df : list ProductRow) (edits : list cell_edit) :
  NoDup (id <$> df) →
  Forall (λ r, 0 ≤ units r) df →
  Forall (λ m, no_negative_units (m_units m))
         (recompute df (data_editor (editor_view df) edits))
  ∧ (Forall (λ e, ¬ empties_units e) edits →
     Forall (λ m, ∃ u, m_units m = Some u ∧ 0 ≤ u)
            (recompute df (data_editor (editor_view df) edits))).
Proof.
  intros Hnd Hdf. rewrite recompute_data_editor by done.
  assert (∀ P : option Z → Prop,
            Forall (λ r, P (e_units r)) (data_editor (editor_view df) edits) →
            Forall (λ m, P (m_units m))
                   (zip_with merged_row df (data_editor (editor_view df) edits)))
    as Hlift.
  { intros P Hgrid. apply Forall_lookup_2. intros k m.
    rewrite lookup_zip_with.
    destruct (df !! k) as [r|]; [|done]. cbn.
    destruct (data_editor (editor_view df) edits !! k) as [e|] eqn:He;
      [|done].
    cbn. intros [= <-]. cbn. by apply (Forall_lookup_1 _ _ _ _ Hgrid He). }
  split.
  - apply Hlift.
    apply (grid_units_preserved no_negative_units (λ _, True)).
    + intros i [v|] _; [by intros Hv z [= <-]|by intros z].
    + by apply Forall_true.
    + unfold editor_view. apply Forall_fmap.
      eapply Forall_impl; [exact Hdf|]. by intros r Hr z [= <-].
  - intros Hkeep.
    apply (Hlift (λ u, ∃ z, u = Some z ∧ 0 ≤ z)).
    apply (grid_units_preserved (λ u, ∃ z, u = Some z ∧ 0 ≤ z)
             (λ e, ¬ empties_units e)); [|done|].
    + intros i [v|] Hnot; [by exists v|]. destruct Hnot. by exists i.
    + unfold editor_view. apply Forall_fmap.
      eapply Forall_impl; [exact Hdf|]. intros r Hr. by exists (units r).
Qed.

(** *** The dataset under NumPy's contract for the draws *)

(** What a row of the dataset looks like on the day [today]. *)
Definition well_formed_row (today : date) (r : ProductRow) : Prop :=
  50 ≤ units r < 400
  ∧ (∃ p : Z, 150 ≤ p < 3500 ∧ price r = float_of_int p)
  ∧ rating r ∈ ratings
  ∧ today - 120 ≤ added_on r < today
  ∧ url r = "https://example.com/product/" +:+ pretty (id r)
  ∧ revenue r = PrimFloat.mul (float_of_int (units r)) (price r).

Section GeneratorContract.

Variable G : Type.
Variable seed_sequence : Z → G.
Variable integers : Z → Z → G → Z * G.
Variable choice_index : nat → G → nat * G.

(** [rng.integers(low, high)] is in [low, high), and [rng.choice] picks a
    position of the array. *)
Hypothesis integers_range :
  ∀ (low high : Z) (g : G), low < high →
    low ≤ (integers low high g).1 < high.
Hypothesis choice_index_range :
  ∀ (n : nat) (g : G), (0 < n)%nat → ((choice_index n g).1 < n)%nat.

Lemma choice_elem_of {A : Type} (a : list A) (dflt : A) (g : G) :
  (0 < length a)%nat → (choice G choice_index a dflt g).1 ∈ a.
Proof.
  intros Hlen. unfold choice.
  pose proof (choice_index_range (length a) g Hlen) as Hk.
  destruct (choice_index (length a) g) as [k g']. cbn [fst] in *.
  apply list_elem_of_In. by apply nth_In.
Qed.

Lemma draw_row_well_formed (today : date) (i : Z) (name cat : string) (g : G) :
  well_formed_row today
    (with_revenue
       (draw_row G integers choice_index (add_days today (-120)) i name cat g).1).
Proof.
  unfold draw_row.
  pose proof (integers_range 50 400 g ltac:(lia)) as Hunits.
  destruct (integers 50 400 g) as [u g1]. cbn [fst] in Hunits.
  pose proof (integers_range 150 3500 g1 ltac:(lia)) as Hprice.
  destruct (integers 150 3500 g1) as [p g2]. cbn [fst] in Hprice.
  pose proof (choice_elem_of ratings 0%float g2 ltac:(cbn; lia)) as Hrating.
  destruct (choice G choice_index ratings 0%float g2) as [rt g3].
  cbn [fst] in Hrating.
  destruct (choice G choice_index stock_flags false g3) as [st g4].
  pose proof (integers_range 0 120 g4 ltac:(lia)) as Hdays.
  destruct (integers 0 120 g4) as [days g5]. cbn [fst] in Hdays.
  unfold well_formed_row, with_revenue, add_days. cbn.
  split_and!; try done; try lia. by exists p.
Qed.

Lemma draw_rows_well_formed (today : date) (ps : list (string * string)) :
  ∀ (i : Z) (g : G),
    Forall (well_formed_row today)
      (with_revenue
         <$> (draw_rows G integers choice_index (add_days today (-120)) i ps g).1).
Proof.
  induction ps as [|[name cat] ps IH]; intros i g; [constructor|].
  cbn [draw_rows].
  pose proof (draw_row_well_formed today i name cat g) as Hrow.
  destruct (draw_row _ _ _ _ _ _ _ g) as [row g1].
  specialize (IH (i + 1) g1).
  destruct (draw_rows _ _ _ _ _ _ g1) as [rows g2].
  cbn [fst] in *. rewrite fmap_cons. by constructor.
Qed.

(** X12. With draws that respect their bounds, every row of the dataset has
    a count in 50..399, an integral price in 150..3499, one of the seven
    ratings, a date within the 120 days before today, the link of its
    identifier, and the revenue of its count and price. *)
Theorem X12_dataset_rows_in_range (today : date) (os_entropy : Z) :
  Forall (well_formed_row today)
         (dataset G seed_sequence integers choice_index today os_entropy).
Proof. unfold dataset. cbv zeta. apply draw_rows_well_formed. Qed.

End GeneratorContract.

Lemma Lcg_integers_range (low high g : Z) :
  low < high → low ≤ (Lcg.integers low high g).1 < high.
Proof.
  intros Hlt. unfold Lcg.integers. cbn [fst].
  pose proof (Z.mod_pos_bound (g / 2 ^ 33) (high - low) ltac:(lia)). lia.
Qed.

Lemma Lcg_choice_index_range (n : nat) (g : Z) :
  (0 < n)%nat → ((Lcg.choice_index n g).1 < n)%nat.
Proof.
  intros Hn. unfold Lcg.choice_index. cbn [fst].
  pose proof (Z.mod_pos_bound (g / 2 ^ 33) (Z.of_nat n) ltac:(lia)). lia.
Qed.

(** *** The order of the floats that are not NaN *)

Ltac sf_cases :=
  cbn in *;
  repeat match goal with
         | |- context [if ?b then _ else _] => is_var b; destruct b
         | H : context [if ?b then _ else _] |- _ => is_var b; destruct b
         end;
  cbn in *;
  change (PosDef.Pos.compare_cont Eq) with Pos.compare in *;
  repeat match goal with
         | |- context [(?a ?= ?b)%Z] => destruct (Z.compare_spec a b)
         | H : context [(?a ?= ?b)%Z] |- _ => destruct (Z.compare_spec a b)
         | |- context [(?a ?= ?b)%positive] => destruct (Pos.compare_spec a b)
         | H : context [(?a ?= ?b)%positive] |- _ =>
             destruct (Pos.compare_spec a b)
         end;
  cbn in *; subst; try discriminate; try reflexivity; try lia;
  try (exfalso; lia).

Lemma SFcompare_refl (x : spec_float) :
  x ≠ S754_nan → SFcompare x x = Some Eq.
Proof. destruct x as [s|s| |s m e]; intros Hx; try done; sf_cases. Qed.

Lemma SFcompare_antisym (x y : spec_float) :
  SFcompare y x = CompOpp <$> SFcompare x y.
Proof. destruct x as [s|s| |s m e], y as [s'|s'| |s' m' e']; sf_cases. Qed.

Lemma SFcompare_lt_trans (x y z : spec_float) :
  SFcompare x y = Some Lt → SFcompare y z = Some Lt → SFcompare x z = Some Lt.
Proof.
  destruct x as [s|s| |s m e], y as [s'|s'| |s' m' e'],
           z as [s''|s''| |s'' m'' e'']; intros H1 H2; sf_cases.
Qed.

Lemma SFcompare_eq_lt (x y z : spec_float) :
  SFcompare x y = Some Eq → SFcompare x z = Some Lt → SFcompare y z = Some Lt.
Proof.
  destruct x as [s|s| |s m e], y as [s'|s'| |s' m' e'],
           z as [s''|s''| |s'' m'' e'']; intros H1 H2; sf_cases.
Qed.

Lemma SFcompare_total (x y : spec_float) :
  x ≠ S754_nan → y ≠ S754_nan →
  SFcompare x y ≠ Some Lt → SFcompare y x ≠ Some Lt → SFcompare x y = Some Eq.
Proof.
  intros Hx Hy Hxy Hyx. rewrite (SFcompare_antisym x y) in Hyx.
  destruct (SFcompare x y) as [[]|] eqn:E; try done.
  destruct x, y; try done; discriminate.
Qed.

Lemma is_nan_SF (x : float) :
  PrimFloat.is_nan x = false ↔ Prim2SF x ≠ S754_nan.
Proof.
  unfold PrimFloat.is_nan. rewrite FloatAxioms.eqb_spec. unfold SFeqb. split.
  - intros Hx Hnan. rewrite Hnan in Hx. discriminate Hx.
  - intros Hx. by rewrite (SFcompare_refl _ Hx).
Qed.

Lemma ltb_true_SF (x y : float) :
  PrimFloat.ltb x y = true ↔ SFcompare (Prim2SF x) (Prim2SF y) = Some Lt.
Proof.
  rewrite FloatAxioms.ltb_spec. unfold SFltb.
  destruct (SFcompare _ _) as [[]|]; split; done.
Qed.

Lemma eqb_true_SF (x y : float) :
  PrimFloat.eqb x y = true ↔ SFcompare (Prim2SF x) (Prim2SF y) = Some Eq.
Proof.
  rewrite FloatAxioms.eqb_spec. unfold SFeqb.
  destruct (SFcompare _ _) as [[]|]; split; done.
Qed.

Lemma ltb_trans (x y z : float) :
  PrimFloat.ltb x y = true → PrimFloat.ltb y z = true →
  PrimFloat.ltb x z = true.
Proof. rewrite !ltb_true_SF. apply SFcompare_lt_trans. Qed.

Lemma ltb_irrefl (x : float) : PrimFloat.ltb x x = false.
Proof.
  apply not_true_is_false. rewrite ltb_true_SF. intros Hlt.
  assert (Prim2SF x ≠ S754_nan) as Hx by (by destruct (Prim2SF x)).
  rewrite (SFcompare_refl _ Hx) in Hlt. discriminate Hlt.
Qed.

Lemma ltb_nan_r (x y : float) :
  PrimFloat.is_nan y = true → PrimFloat.ltb x y = false.
Proof.
  intros Hy. apply not_true_is_false. rewrite ltb_true_SF. intros Hlt.
  assert (PrimFloat.is_nan y = false) as Hy'; [|congruence].
  apply is_nan_SF. intros Hnan. rewrite Hnan in Hlt.
  by destruct (Prim2SF x).
Qed.

Lemma eqb_ltb (x m y : float) :
  PrimFloat.eqb x m = true → PrimFloat.ltb x y = true →
  PrimFloat.ltb m y = true.
Proof. rewrite eqb_true_SF, !ltb_true_SF. apply SFcompare_eq_lt. Qed.

Lemma ltb_total (x y : float) :
  PrimFloat.is_nan x = false → PrimFloat.is_nan y = false →
  PrimFloat.ltb x y = false → PrimFloat.ltb y x = false →
  PrimFloat.eqb x y = true.
Proof.
  rewrite !is_nan_SF, eqb_true_SF. intros Hx Hy Hxy Hyx.
  apply SFcompare_total; [done|done| |]; rewrite <- ltb_true_SF; congruence.
Qed.

(** Between [x < z] any [y] that is not NaN falls on one side. *)
Lemma ltb_cotrans (x y z : float) :
  PrimFloat.is_nan y = false → PrimFloat.ltb x z = true →
  PrimFloat.ltb x y = true ∨ PrimFloat.ltb y z = true.
Proof.
  intros Hy Hxz.
  destruct (PrimFloat.ltb x y) eqn:Hxy; [by left|right].
  destruct (PrimFloat.ltb y x) eqn:Hyx; [by eapply ltb_trans|].
  assert (PrimFloat.is_nan x = false) as Hx.
  { apply is_nan_SF. intros Hnan. apply ltb_true_SF in Hxz.
    rewrite Hnan in Hxz. discriminate Hxz. }
  eapply eqb_ltb; [|exact Hxz]. by apply ltb_total.
Qed.

(** *** The largest value of a series *)

Lemma fold_fmax (xs : list float) :
  ∀ acc : float,
    Forall (λ x, PrimFloat.is_nan x = false) (acc :: xs) →
    let m := fold_left fmax xs acc in
    m ∈ acc :: xs ∧ ∀ y, y ∈ acc :: xs → PrimFloat.ltb m y = false.
Proof.
  induction xs as [|x xs IH]; intros acc Hok; cbn zeta.
  - cbn [fold_left]. split; [left|].
    intros y ->%list_elem_of_singleton. apply ltb_irrefl.
  - cbn [fold_left].
    apply Forall_cons in Hok as [Hacc Hok].
    pose proof Hok as [Hx Hxs]%Forall_cons.
    assert (PrimFloat.is_nan (fmax acc x) = false) as Hnext.
    { unfold fmax. by destruct (PrimFloat.ltb acc x). }
    destruct (IH (fmax acc x) (Forall_cons_2 _ _ _ Hnext Hxs)) as [Hin Hmax].
    set (m := fold_left fmax xs (fmax acc x)) in *.
    assert (PrimFloat.ltb m (fmax acc x) = false) as Hm by (apply Hmax; left).
    split.
    + apply elem_of_cons in Hin as [Hin|Hin]; [|by do 2 right].
      rewrite Hin. unfold fmax.
      destruct (PrimFloat.ltb acc x); [right|]; left.
    + intros y Hy. apply elem_of_cons in Hy as [->|Hy];
        [|apply elem_of_cons in Hy as [->|Hy]; [|apply Hmax; by right]].
      * (* the old accumulator *)
        unfold fmax in Hm. destruct (PrimFloat.ltb acc x) eqn:Hlt; [|done].
        apply not_true_is_false. intros Hmacc.
        by rewrite (ltb_trans _ _ _ Hmacc Hlt) in Hm.
      * (* the element just folded in *)
        unfold fmax in Hm. destruct (PrimFloat.ltb acc x) eqn:Hlt; [done|].
        apply not_true_is_false. intros Hmx.
        destruct (ltb_cotrans m acc x Hacc Hmx); congruence.
Qed.

Lemma Series_max_spec (s : list float) (x : float) :
  x ∈ s → PrimFloat.is_nan x = false →
  Series_max s ∈ s
  ∧ PrimFloat.is_nan (Series_max s) = false
  ∧ ∀ y, y ∈ s → PrimFloat.ltb (Series_max s) y = false.
Proof.
  intros Hx Hnan. unfold Series_max.
  assert (x ∈ filter (λ x, PrimFloat.is_nan x = false) s) as Hok.
  { by apply list_elem_of_filter. }
  assert (Forall (λ x, PrimFloat.is_nan x = false)
                 (filter (λ x, PrimFloat.is_nan x = false) s)) as Hall.
  { apply Forall_forall. by intros y [? _]%list_elem_of_filter. }
  assert (∀ y, y ∈ filter (λ x, PrimFloat.is_nan x = false) s → y ∈ s) as Hsub.
  { by intros y [_ ?]%list_elem_of_filter. }
  assert (∀ y, y ∈ s → PrimFloat.is_nan y = false →
               y ∈ filter (λ x, PrimFloat.is_nan x = false) s) as Hback.
  { intros y ? ?. by apply list_elem_of_filter. }
  destruct (filter (λ x, PrimFloat.is_nan x = false) s) as [|a xs];
    [by apply elem_of_nil in Hok|].
  destruct (fold_fmax xs a Hall) as [Hin Hmax]. split_and!.
  - by apply Hsub.
  - by apply (proj1 (Forall_forall _ _) Hall).
  - intros y Hy. destruct (PrimFloat.is_nan y) eqn:Hynan.
    + by apply ltb_nan_r.
    + apply Hmax. by apply Hback.
Qed.

(** X13. [highlight_top_revenue] returns one style per value.  A styled
    value is exceeded by no value of the series; every value that is not NaN
    and exceeded by none is styled, ties included; and a series with a value
    that is not NaN has a styled cell. *)
Theorem X13_highlight_marks_the_maxima (s : list float) :
  length (highlight_top_revenue s) = length s
  ∧ (∀ (k : nat) (x y : float),
       s !! k = Some x → highlight_top_revenue s !! k = Some top_style →
       y ∈ s → PrimFloat.ltb x y = false)
  ∧ (∀ (k : nat) (x : float),
       s !! k = Some x → PrimFloat.is_nan x = false →
       (∀ y, y ∈ s → PrimFloat.ltb x y = false) →
       highlight_top_revenue s !! k = Some top_style)
  ∧ (∀ x : float, x ∈ s → PrimFloat.is_nan x = false →
       top_style ∈ highlight_top_revenue s).
Proof.
  assert (∀ k x, s !! k = Some x →
            highlight_top_revenue s !! k
            = Some (if PrimFloat.eqb x (Series_max s) then top_style else ""))
    as Hcell.
  { intros k x Hk. unfold highlight_top_revenue. cbv zeta.
    by rewrite !list_lookup_fmap, Hk. }
  split_and!.
  - unfold highlight_top_revenue. cbv zeta. by rewrite !length_fmap.
  - intros k x y Hk Hstyle Hy. rewrite (Hcell k x Hk) in Hstyle.
    destruct (PrimFloat.eqb x (Series_max s)) eqn:Heq; [|discriminate Hstyle].
    assert (PrimFloat.is_nan x = false) as Hx.
    { apply is_nan_SF. intros Hnan. apply eqb_true_SF in Heq.
      rewrite Hnan in Heq. discriminate Heq. }
    destruct (Series_max_spec s x) as (_ & _ & Hmax);
      [by eapply list_elem_of_lookup_2|done|].
    apply not_true_is_false. intros Hlt.
    pose proof (Hmax y Hy) as Hm. by rewrite (eqb_ltb _ _ _ Heq Hlt) in Hm.
  - intros k x Hk Hx Htop. rewrite (Hcell k x Hk).
    destruct (Series_max_spec s x) as (Hin & Hnan & Hmax);
      [by eapply list_elem_of_lookup_2|done|].
    rewrite ltb_total; [done|done|done|by apply Htop|].
    apply Hmax. by eapply list_elem_of_lookup_2.
  - intros x Hx Hnan.
    destruct (Series_max_spec s x Hx Hnan) as (Hin & Hmnan & _).
    apply list_elem_of_lookup in Hin as [k Hk].
    apply (list_elem_of_lookup_2 _ k). rewrite (Hcell k _ Hk).
    assert (PrimFloat.eqb (Series_max s) (Series_max s) = true) as ->; [|done].
    unfold PrimFloat.is_nan in Hmnan. by apply negb_false_iff in Hmnan.
Qed.

(** *** The views of the dataset *)

(** X14. Of the ten rows of the dataset the interactive table of section 1
    shows the first eight and the static one the first five, the slice
    [:4] being by label and including its end, with the product, category,
    count and price of each. *)
Theorem X14_section_one_tables
    (G : Type) (seed_sequence : Z → G) (integers : Z → Z → G → Z * G)
    (choice_index : nat → G → nat * G) (today : date) (os_entropy : Z) :
  let df := dataset G seed_sequence integers choice_index today os_entropy in
  id <$> head 8 df = [1; 2; 3; 4; 5; 6; 7; 8]
  ∧ length (static_table df) = 5%nat
  ∧ (λ t, (t.1.1.1, t.1.1.2)) <$> static_table df = take 5 products
  ∧ static_table df
    = (λ r, (product r, category r, units r, price r)) <$> take 5 df.
Proof.
  cbv zeta.
  set (df := dataset G seed_sequence integers choice_index today os_entropy).
  assert (id <$> df = seqZ 1 10) as Hids by apply dataset_ids.
  assert ((λ r, (product r, category r)) <$> df = products) as Hnames.
  { unfold df, dataset. cbv zeta. rewrite <- list_fmap_compose.
    apply draw_rows_names. }
  split_and!.
  - unfold head. by rewrite fmap_take, Hids.
  - unfold static_table, loc_upto. rewrite length_fmap, length_take.
    rewrite <- (length_fmap id df), Hids. done.
  - unfold static_table, loc_upto. rewrite <- list_fmap_compose.
    change ((λ t : string * string * Z * float, (t.1.1.1, t.1.1.2))
            ∘ (λ r, (product r, category r, units r, price r)))
      with (λ r, (product r, category r)).
    by rewrite fmap_take, Hnames.
  - done.
Qed.

Lemma in_stock_pct_of_ten (c : nat) :
  (c ≤ 10)%nat →
  let pct := PrimFloat.mul (PrimFloat.div (float_of_int (Z.of_nat c))
                                          (float_of_int 10)) 100%float in
  PrimFloat.leb 0%float pct = true ∧ PrimFloat.leb pct 100%float = true.
Proof.
  intros Hc. do 11 (destruct c as [|c]; [by vm_compute|]). lia.
Qed.

Lemma count_true_le (s : list bool) : (count_true s ≤ length s)%nat.
Proof. unfold count_true. apply length_filter. Qed.

(** X15. Whatever the generator drew, the share of rows in stock that the
    third metric shows is a float between 0 and 100. *)
Theorem X15_in_stock_pct_is_a_percentage
    (G : Type) (seed_sequence : Z → G) (integers : Z → Z → G → Z * G)
    (choice_index : nat → G → nat * G) (today : date) (os_entropy : Z) :
  let df := dataset G seed_sequence integers choice_index today os_entropy in
  PrimFloat.leb 0%float (in_stock_pct df) = true
  ∧ PrimFloat.leb (in_stock_pct df) 100%float = true.
Proof.
  cbv zeta.
  set (df := dataset G seed_sequence integers choice_index today os_entropy).
  assert (length (in_stock <$> df) = 10%nat) as Hlen.
  { rewrite length_fmap, <- (length_fmap id df). unfold df.
    by rewrite dataset_ids. }
  unfold in_stock_pct, Series_mean_bool.
  pose proof (count_true_le (in_stock <$> df)) as Hc. rewrite Hlen in *.
  by apply in_stock_pct_of_ten.
Qed.

Lemma column_df_columns (c : string) :
  c ∈ df_columns → is_Some (column c df_cells).
Proof.
  unfold df_columns, df_cells. cbn [fmap list_fmap fst]. intros Hc.
  repeat (apply elem_of_cons in Hc as [->|Hc]; [by eexists|]).
  by apply elem_of_nil in Hc.
Qed.

Lemma getters_columns (cols : list string) :
  Forall (λ c, c ∈ df_columns) cols →
  ∃ gets, getters cols = inl gets ∧ length gets = length cols.
Proof.
  induction 1 as [|c cols Hc _ IH]; [by exists []|].
  destruct IH as (gets & Hgets & Hlen).
  destruct (column_df_columns c Hc) as [get Hget].
  exists (get :: gets). cbn [getters]. rewrite Hget, Hgets. cbn [length].
  by rewrite Hlen.
Qed.

Lemma multiselect_options (picked : option (list nat)) :
  Forall (λ c, c ∈ df_columns)
         (multiselect df_columns default_columns picked).
Proof.
  destruct picked as [ks|]; cbn [multiselect].
  - apply Forall_forall. intros c (k & _ & Hk)%list_elem_of_omap.
    by eapply list_elem_of_lookup_2.
  - unfold default_columns, df_columns, df_cells. cbn [fmap list_fmap fst].
    repeat (apply Forall_cons_2; [set_solver|]). constructor.
Qed.

(** X16. The column selector cannot ask for a column the table lacks: for
    every selection the view is a frame, never a [KeyError], with the picked
    columns in the order picked, one row per row of the table and one cell
    per picked column; left alone, it shows product, category, units, price
    and revenue. *)
Theorem X16_selected_view_never_raises
    (picked : option (list nat)) (df : list ProductRow) :
  ∃ rows,
    selected_view picked df
    = Selected (multiselect df_columns default_columns picked) rows
    ∧ length rows = length df
    ∧ Forall (λ row, length row
                     = length (multiselect df_columns default_columns picked))
             rows
    ∧ (picked = None →
       rows = (λ r, [CStr (product r); CStr (category r); CInt (units r);
                     CFloat (price r); CFloat (revenue r)]) <$> df).
Proof.
  unfold selected_view, getitem_columns.
  destruct (getters_columns _ (multiselect_options picked))
    as (gets & Hgets & Hlen).
  rewrite Hgets. eexists. split_and!; [done| | |].
  - by rewrite length_fmap.
  - apply Forall_fmap, Forall_true. intros r. cbn.
    by rewrite length_fmap.
  - intros ->. cbn [multiselect] in Hgets.
    vm_compute in Hgets. by injection Hgets as <-.
Qed.

(** *** Worked examples *)

(** Picking units and then id shows them in that order. *)
Example selected_view_in_picked_order :
  selected_view (Some [3; 0]%nat) two_rows
  = Selected ["units"; "id"] [[CInt 100; CInt 1]; [CInt 7; CInt 2]].
Proof. reflexivity. Qed.

(** A label that is no column is a [KeyError]; the selector never sends one. *)
Example getitem_unknown_column :
  getitem_columns ["product"; "stock"] two_rows = KeyError "stock".
Proof. reflexivity. Qed.


(** Two equal tops are both styled, and a NaN is not. *)
Example highlight_ties_and_nan :
  highlight_top_revenue [3000; PrimFloat.nan; 1057; 3000]%float
  = [top_style; ""; ""; top_style].
Proof. vm_compute. reflexivity. Qed.


(** X12 on the linear congruential generator. *)
Lemma X12_witness :
  Forall (well_formed_row (ymd 2024 5 9)) (Lcg.dataset (ymd 2024 5 9) 0).
Proof.
  apply (X12_dataset_rows_in_range Z Lcg.seed_sequence Lcg.integers
           Lcg.choice_index Lcg_integers_range Lcg_choice_index_range).
Defined.


(** X9 on the two rows: the flag of the second row is set. *)
Lemma X9_witness :
  let before := recompute two_rows (data_editor (editor_view two_rows) []) in
  let after :=
    recompute two_rows
      (data_editor (editor_view two_rows) [EditInStock 1 (Some true)]) in
  m_revenue <$> after = m_revenue <$> before
  ∧ m_units <$> after = m_units <$> before
  ∧ (∀ j : nat, j ≠ 1%nat → after !! j = before !! j)
  ∧ (∀ m, after !! 1%nat = Some m → m_in_stock m = Some true).
Proof.
  apply (X9_in_stock_edit_keeps_revenue two_rows [] 1%nat true).
  apply (bool_decide_unpack (NoDup (id <$> two_rows))). vm_compute. exact I.
Defined.

(** X11 on the two rows, after a refused edit, an emptied cell and an
    accepted edit: the counts are 100 and 0, and were none while the second
    cell was empty. *)
Lemma X11_witness :
  let edits := [EditUnits 0 (Some (-5)); EditUnits 1 None; EditUnits 1 (Some 0)] in
  (Forall (λ m, no_negative_units (m_units m))
          (recompute two_rows (data_editor (editor_view two_rows) edits))
   ∧ (Forall (λ e, ¬ empties_units e) edits →
      Forall (λ m, ∃ u, m_units m = Some u ∧ 0 ≤ u)
             (recompute two_rows (data_editor (editor_view two_rows) edits))))
  ∧ m_units <$> recompute two_rows (data_editor (editor_view two_rows) edits)
    = [Some 100; Some 0]
  ∧ m_units <$> recompute two_rows
                  (data_editor (editor_view two_rows)
                     [EditUnits 0 (Some (-5)); EditUnits 1 None])
    = [Some 100; None].
Proof.
  split; [|by vm_compute].
  apply (X11_units_stay_non_negative two_rows
           [EditUnits 0 (Some (-5)); EditUnits 1 None; EditUnits 1 (Some 0)]).
  - apply (bool_decide_unpack (NoDup (id <$> two_rows))). vm_compute. exact I.
  - repeat constructor; cbn; lia.
Defined.


(** The scenario of C5, after the count of the second row was emptied: the
    count of the first row goes from 100 to 150 at a price of 20, its revenue
    becomes 3000, and the second row stays without count and revenue. *)
Lemma C5_witness :
  let after :=
    recompute two_rows
      (data_editor (editor_view two_rows)
         ([EditUnits 1 None] ++ [EditUnits 0 (Some 150)])) in
  ((∃ m, after !! 0%nat = Some m
         ∧ m_id m = 1
         ∧ m_units m = Some 150
         ∧ m_price m = 20%float
         ∧ m_revenue m = PrimFloat.mul (float_of_int 150) 20%float)
   ∧ (∀ j : nat, j ≠ 0%nat →
        after !! j
        = recompute two_rows
            (data_editor (editor_view two_rows) [EditUnits 1 None]) !! j)
   ∧ length after = 2%nat
   ∧ Forall (λ m, match m_units m with
                  | Some u =>
                      m_revenue m = PrimFloat.mul (float_of_int u) (m_price m)
                  | None => m_revenue m = PrimFloat.nan
                  end)
            after)
  ∧ m_revenue <$> after = [3000%float; PrimFloat.nan]
  ∧ m_revenue
      <$> recompute two_rows
            (data_editor (editor_view two_rows) [EditUnits 0 (Some 150)])
    = [3000%float; 1057%float].
Proof.
  split; [|by vm_compute].
  - apply (C5_units_edit_recomputes_revenue two_rows [EditUnits 1 None] 0%nat
             {| id := 1; product := "Engine Oil"; category := "AutoCare";
                units := 100; price := 20%float; rating := 4.3%float;
                in_stock := true; added_on := ymd 2024 1 10;
                url := "https://example.com/product/1";
                revenue := 2000%float |} 150).
    + apply (bool_decide_unpack (NoDup (id <$> two_rows))). vm_compute. exact I.
    + reflexivity.
    + lia.
Defined.

(** A negative count is refused by the grid: nothing changes. *)
Example negative_units_refused :
  data_editor (editor_view two_rows) [EditUnits 0 (Some (-5))]
  = editor_view two_rows.
Proof. reflexivity. Qed.

(** An emptied units cell gives a missing count and a NaN revenue for its
    row; the edit of the other row goes through as usual. *)
Example emptied_units_cell :
  (λ m, (m_units m, m_revenue m))
    <$> recompute two_rows
          (data_editor (editor_view two_rows)
             [EditUnits 1 None; EditUnits 0 (Some 150)])
  = [(Some 150, 3000%float); (None, PrimFloat.nan)].
Proof. vm_compute. reflexivity. Qed.

(** The join itself, off the diagonal: a left row without a match keeps its
    place with missing values, and one with two matches appears twice. *)
Example merge_left_unmatched_and_repeated :
  (λ m, (m_id m, m_units m))
    <$> merge_left (drop_editable <$> two_rows)
          [mkEditedCols 2 (Some 8) (Some true);
           mkEditedCols 2 (Some 9) (Some false)]
  = [(1, None); (2, Some 8); (2, Some 9)].
Proof. reflexivity. Qed.

(** The dataset on that generator: ten rows, counts and dates in range, and
    the revenue column computed from the other two. *)
Example lcg_dataset_shape :
  let df := Lcg.dataset (ymd 2024 5 9) 0 in
  length df = 10%nat
  ∧ url <$> take 2 df
    = ["https://example.com/product/1"; "https://example.com/product/2"]
  ∧ forallb (λ r, (50 <=? units r) && (units r <? 400)
                  && (ymd 2024 1 10 <=? added_on r) && (added_on r <? ymd 2024 5 9))
            df = true
  ∧ revenue <$> df
    = (λ r, PrimFloat.mul (float_of_int (units r)) (price r)) <$> df.
Proof. vm_compute. done. Qed.

(** Without the fixed seed the generator starts from the entropy, and two
    executions need not agree. *)
Example unseeded_generators_differ :
  default_rng Z Lcg.seed_sequence None 1 ≠ default_rng Z Lcg.seed_sequence None 2.
Proof. vm_compute. discriminate. Qed.

End Showcase.
